(** * Media resolution and export gate of strapi-plugin-import-export-entries

    A shallow embedding of the file utilities of the import service
    ([findOrImportFile] and everything it calls) and of the admin export
    controller ([exportData]).

    The JavaScript code talks to collaborators that are not part of the
    plugin: the language built-ins ([decodeURIComponent], [new URL],
    [parseInt]), the [slugify] package, the [request] package, the file
    system, the entity service and the upload service of the host.  The
    built-ins and the effectful collaborators are the fields of two classes;
    general theorems hold for every instance, concrete evaluations use the
    instances [plain_builtins] and [Demo.demo_collaborators] declared below. *)

From Stdlib Require Import String Ascii List ZArith Bool Lia DecimalString.
Import ListNotations.

Local Open Scope string_scope.
Local Open Scope list_scope.

(* ================================================================== *)
(** ** JavaScript strings *)

Module JsString.

Definition is_upper (c : ascii) : bool :=
  let n := nat_of_ascii c in (Nat.leb 65 n && Nat.leb n 90)%bool.

Definition lower_char (c : ascii) : ascii :=
  if is_upper c then ascii_of_nat (nat_of_ascii c + 32) else c.

(** [s.toLowerCase()] on an ASCII string; a URL pathname is always ASCII. *)
Fixpoint toLowerCase (s : string) : string :=
  match s with
  | EmptyString => EmptyString
  | String c r => String (lower_char c) (toLowerCase r)
  end.

Fixpoint trimStart (c : ascii) (s : string) : string :=
  match s with
  | EmptyString => EmptyString
  | String a r => if Ascii.eqb a c then trimStart c r else s
  end.

Fixpoint trimEnd (c : ascii) (s : string) : string :=
  match s with
  | EmptyString => EmptyString
  | String a r =>
      match trimEnd c r with
      | EmptyString => if Ascii.eqb a c then EmptyString else String a EmptyString
      | r' => String a r'
      end
  end.

(** lodash [trim(s, chars)] for a single character. *)
Definition trim (s : string) (c : ascii) : string := trimEnd c (trimStart c s).

(** [s.replace(/c/g, d)] for single characters. *)
Fixpoint replaceAll (c d : ascii) (s : string) : string :=
  match s with
  | EmptyString => EmptyString
  | String a r => String (if Ascii.eqb a c then d else a) (replaceAll c d r)
  end.

(** [s.split(c)]: never the empty array. *)
Fixpoint split (c : ascii) (s : string) : list string :=
  match s with
  | EmptyString => [EmptyString]
  | String a r =>
      if Ascii.eqb a c then EmptyString :: split c r
      else match split c r with
           | h :: t => String a h :: t
           | [] => [String a EmptyString]
           end
  end.

(** [arr.pop()] and [arr.shift()] as values, on the arrays [split] makes. *)
Definition pop (l : list string) : string := last l EmptyString.
Definition shift (l : list string) : string := hd EmptyString l.

Fixpoint lastIndexOf_from (c : ascii) (s : string) (i acc : Z) : Z :=
  match s with
  | EmptyString => acc
  | String a r => lastIndexOf_from c r (i + 1) (if Ascii.eqb a c then i else acc)
  end.

(** [s.lastIndexOf(c)]: [-1] when [c] does not occur. *)
Definition lastIndexOf (c : ascii) (s : string) : Z := lastIndexOf_from c s 0 (-1).

Definition clamp (n : Z) (s : string) : nat :=
  Z.to_nat (Z.min (Z.max n 0) (Z.of_nat (String.length s))).

(** [s.substring(from, to)]: both bounds clamped to the string, swapped when
    out of order. *)
Definition substring (from to : Z) (s : string) : string :=
  let a := clamp from s in
  let b := clamp to s in
  String.substring (Nat.min a b) (Nat.max a b - Nat.min a b) s.

(** [s.substring(from)]. *)
Definition substring_from (from : Z) (s : string) : string :=
  substring from (Z.of_nat (String.length s)) s.

Definition startsWith (s p : string) : bool := String.prefix p s.

(** Truthiness of a string value. *)
Definition truthy (s : string) : bool := negb (String.eqb s EmptyString).

Fixpoint contains (c : ascii) (s : string) : bool :=
  match s with
  | EmptyString => false
  | String a r => (Ascii.eqb a c || contains c r)%bool
  end.

Definition show_Z (n : Z) : string := NilZero.string_of_int (Z.to_int n).
Definition show_nat (n : nat) : string := NilZero.string_of_uint (Nat.to_uint n).

End JsString.

(* ================================================================== *)
(** ** Values, errors and results *)

(** A property that may be absent: [None] is [undefined]. *)
Definition JsStr := option string.

(** [String(v)] as the built-ins apply it to their argument. *)
Definition js_to_string (v : JsStr) : string :=
  match v with
  | Some s => s
  | None => "undefined"
  end.

Definition str_truthy (v : JsStr) : bool :=
  match v with
  | Some s => JsString.truthy s
  | None => false
  end.

Inductive Err : Type :=
| URIError (msg : string)
| TypeError (msg : string)
| Error (msg : string).

(** Result of synchronous code that may throw. *)
Inductive Exc (A : Type) : Type :=
| Ok (a : A)
| Raise (e : Err).
Arguments Ok {A} a.
Arguments Raise {A} e.

Definition exc_bind {A B} (x : Exc A) (f : A -> Exc B) : Exc B :=
  match x with
  | Ok a => f a
  | Raise e => Raise e
  end.

Fixpoint exc_map {A B} (f : A -> Exc B) (l : list A) : Exc (list B) :=
  match l with
  | [] => Ok []
  | a :: r =>
      exc_bind (f a) (fun b => exc_bind (exc_map f r) (fun bs => Ok (b :: bs)))
  end.

(* ================================================================== *)
(** ** The extension allow-list *)

Definition includes (l : list string) (x : string) : bool :=
  existsb (String.eqb x) l.

Definition ALLOWED_AUDIOS : list string := ["mp3"; "wav"; "ogg"].
Definition ALLOWED_IMAGES : list string :=
  ["png"; "gif"; "jpg"; "jpeg"; "svg"; "bmp"; "tif"; "tiff"].
Definition ALLOWED_VIDEOS : list string := ["mp4"; "avi"].

(** The object [fileTypeCheckers], keyed by Strapi's [allowedTypes] names. *)
Definition fileTypeCheckers : list (string * (string -> bool)) :=
  [ ("audios", fun ext => includes ALLOWED_AUDIOS ext);
    ("files", fun _ => true);
    ("images", fun ext => includes ALLOWED_IMAGES ext);
    ("videos", fun ext => includes ALLOWED_VIDEOS ext) ].

Fixpoint assoc {V} (k : string) (m : list (string * V)) : option V :=
  match m with
  | [] => None
  | (k', v) :: r => if String.eqb k k' then Some v else assoc k r
  end.

(** What a property of the object [fileTypeCheckers] holds, as the allow
    check uses it: a function of the extension, whose result is read as a
    boolean and which may throw, or a value that is not a function. *)
Inductive Checker : Type :=
| Callable (call : string -> Exc bool)
| NotCallable.

Definition called_on_undefined : Exc bool :=
  Raise (TypeError "Cannot convert undefined or null to object").

(** [fileTypeCheckers] is a plain object: indexing it also finds what it
    inherits from [Object.prototype].  The checker is called with one
    argument, a string, and without a receiver: [Object(ext)] and
    [toString()] give a truthy value, [isPrototypeOf(ext)] is false for a
    string, the others convert the absent receiver to an object and throw;
    [__proto__] is the prototype itself, not a function. *)
Definition Object_prototype : list (string * Checker) :=
  [ ("constructor", Callable (fun _ => Ok true));
    ("toString", Callable (fun _ => Ok true));
    ("isPrototypeOf", Callable (fun _ => Ok false));
    ("toLocaleString", Callable (fun _ => called_on_undefined));
    ("valueOf", Callable (fun _ => called_on_undefined));
    ("hasOwnProperty", Callable (fun _ => called_on_undefined));
    ("propertyIsEnumerable", Callable (fun _ => called_on_undefined));
    ("__defineGetter__", Callable (fun _ => called_on_undefined));
    ("__defineSetter__", Callable (fun _ => called_on_undefined));
    ("__lookupGetter__", Callable (fun _ => called_on_undefined));
    ("__lookupSetter__", Callable (fun _ => called_on_undefined));
    ("__proto__", NotCallable) ].

(** [fileTypeCheckers[type]]: an own property first, then an inherited
    one. *)
Definition property_of_fileTypeCheckers (type : string) : option Checker :=
  match assoc type fileTypeCheckers with
  | Some checker => Some (Callable (fun ext => Ok (checker ext)))
  | None => assoc type Object_prototype
  end.

Definition getFileTypeChecker (type : string) : Exc Checker :=
  match property_of_fileTypeCheckers type with
  | None => Raise (Error ("Strapi file type " ++ type ++ " not handled."))
  | Some checker => Ok checker
  end.

(** [checker(ext)] *)
Definition call_checker (checker : Checker) (ext : string) : Exc bool :=
  match checker with
  | Callable call => call ext
  | NotCallable => Raise (TypeError "checker is not a function")
  end.

(** [checkers.some((checker) => checker(ext))]: the checkers are called in
    order up to the first truthy result; what one of them throws ends the
    search. *)
Fixpoint some_checker (checkers : list Checker) (ext : string) : Exc bool :=
  match checkers with
  | [] => Ok false
  | checker :: rest =>
      exc_bind (call_checker checker ext) (fun accepted =>
      if accepted then Ok true else some_checker rest ext)
  end.

Definition isExtensionAllowed (ext : string) (allowedFileTypes : list string)
  : Exc bool :=
  exc_bind (exc_map getFileTypeChecker allowedFileTypes) (fun checkers =>
  some_checker checkers ext).

(* ================================================================== *)
(** ** Built-ins and packages the file utilities call *)

(** [decodeURIComponent] and [new URL(..).pathname] answer [None] where the
    built-in throws.  [slugify] is the package function applied with the
    options the source passes, [{ separator: '_', lowercase: false }].
    [parseInt] answers [None] for [NaN]. *)
Class Builtins : Type := {
  decodeURIComponent : string -> option string;
  URL_pathname : string -> option string;
  slugify : string -> string;
  parseInt : JsStr -> option Z
}.

(** [n | 0] on a [parseInt] result: [NaN] becomes [0], the rest wraps to a
    signed 32-bit integer. *)
Definition to_int32 (v : option Z) : Z :=
  match v with
  | None => 0%Z
  | Some n => ((n + 2 ^ 31) mod 2 ^ 32 - 2 ^ 31)%Z
  end.

Record RawFileData : Type := {
  name : string;
  hashPart : string;
  extension : string
}.

(** [pathname.split('.').pop().toLowerCase()] *)
Definition derived_extension (pathname : string) : string :=
  JsString.toLowerCase (JsString.pop (JsString.split "." pathname)).

(** [pathname.substring(0, pathname.lastIndexOf('.')) || pathname] *)
Definition without_extension (pathname : string) : string :=
  let noExtension :=
    JsString.substring 0 (JsString.lastIndexOf "." pathname) pathname in
  if JsString.truthy noExtension then noExtension else pathname.

Section FileNames.
Context {B : Builtins}.

(** [new URL(decodeURIComponent(rawUrl)).pathname] *)
Definition parsed_pathname (rawUrl : JsStr) : Exc string :=
  match decodeURIComponent (js_to_string rawUrl) with
  | None => Raise (URIError "URI malformed")
  | Some decoded =>
      match URL_pathname decoded with
      | None => Raise (TypeError "Invalid URL")
      | Some pathname => Ok pathname
      end
  end.

Definition getHashPart (rawUrl : JsStr) : Exc string :=
  exc_bind (parsed_pathname rawUrl) (fun pathname =>
  Ok (slugify (without_extension pathname))).

Definition getFileDataFromRawUrl (rawUrl : JsStr) : Exc RawFileData :=
  exc_bind (parsed_pathname rawUrl) (fun pathname =>
  let name :=
    JsString.replaceAll "/" "-"
      (JsString.trim (JsString.toLowerCase pathname) "/") in
  exc_bind (getHashPart rawUrl) (fun hashPart =>
  Ok {| name := name;
        hashPart := hashPart;
        extension := derived_extension pathname |})).

End FileNames.

(* ================================================================== *)
(** ** The world the resolver runs in *)

(** An entry of [plugin::upload.file]. *)
Record StoredFile : Type := {
  id : Z;
  hash : string;
  ext : string;
  file_name : string
}.

(** What the lookups and imports hand back: a file, [null] or [undefined]. *)
Inductive MaybeFile : Type :=
| JNull
| JUndefined
| JFile (f : StoredFile).

Definition file_truthy (m : MaybeFile) : bool :=
  match m with
  | JFile _ => true
  | _ => false
  end.

Record User : Type := { user_id : Z }.

Record UploadArgs : Type := {
  files_name : string;
  files_type : string;
  files_size : Z;
  files_path : string;
  fileInfo_name : string;
  fileInfo_alternativeText : string;
  fileInfo_caption : string
}.

(** A condition on an entry of the file table. *)
Inductive Condition : Type :=
| HashPrefix (prefix : string)
| NameIs (n : string).

(** The parameters of a [findMany] call, by key: [filters], [where],
    [limit]. *)
Record Query : Type := {
  param_filters : option Condition;
  param_where : option Condition;
  param_limit : nat
}.

(** [{ where: { hash: { $startsWith: prefix } }, limit: 1 }] *)
Definition HashStartsWith (prefix : string) : Query :=
  {| param_filters := None;
     param_where := Some (HashPrefix prefix);
     param_limit := 1 |}.

(** [{ filters: { name }, limit: 1 }] *)
Definition NameEquals (n : string) : Query :=
  {| param_filters := Some (NameIs n);
     param_where := None;
     param_limit := 1 |}.

Inductive Event : Type :=
| EvFindOne (i : Z)
| EvFindMany (q : Query)
| EvRequest (url : string)
| EvUpload (a : UploadArgs)
| EvMkdtemp (dir : string)
| EvWriteFile (path : string)
| EvRmFile (path : string)
| EvLogError (e : Err)
| EvUnhandledRejection (e : Err).

(** [store]: the upload file table; [disk]: the paths of the files that
    exist under the temporary directory; [mkdtemp_count]: how many temporary
    directories were made so far. *)
Record World : Type := {
  store : list StoredFile;
  disk : list string;
  mkdtemp_count : nat
}.

(** How an awaited operation ends.  [Pending] is a promise that is never
    settled: the awaiting function does not continue, its [catch] and
    [finally] blocks do not run. *)
Inductive Outcome (A : Type) : Type :=
| Ret (a : A)
| Throw (e : Err)
| Pending.
Arguments Ret {A} a.
Arguments Throw {A} e.
Arguments Pending {A}.

(** A computation: from a world to an outcome, the world it leaves and the
    collaborator calls it made, in order. *)
Definition M (A : Type) : Type := World -> Outcome A * World * list Event.

Definition ret {A} (a : A) : M A := fun w => (Ret a, w, []).
Definition throw {A} (e : Err) : M A := fun w => (Throw e, w, []).

Definition bind {A B} (m : M A) (k : A -> M B) : M B :=
  fun w =>
    match m w with
    | (Ret a, w1, t1) => let '(r, w2, t2) := k a w1 in (r, w2, t1 ++ t2)
    | (Throw e, w1, t1) => (Throw e, w1, t1)
    | (Pending, w1, t1) => (Pending, w1, t1)
    end.

Declare Scope js_scope.
Delimit Scope js_scope with js.
Notation "x <- m ;; k" := (bind m (fun x => k))
  (at level 61, m at next level, right associativity) : js_scope.
Local Open Scope js_scope.

Definition lift {A} (x : Exc A) : M A :=
  match x with
  | Ok a => ret a
  | Raise e => throw e
  end.

Definition emit (e : Event) : M unit := fun w => (Ret tt, w, [e]).

(** [strapi.log.error(err)] *)
Definition log_error (e : Err) : M unit := emit (EvLogError e).

(** [try { body } catch (err) { handler(err) } finally { fin }] *)
Definition try_catch_finally {A} (body : M A) (handler : Err -> M A) (fin : M unit)
  : M A :=
  fun w =>
    let '(r1, w1, t1) :=
      match body w with
      | (Throw e, w0, t0) => let '(r, w', t') := handler e w0 in (r, w', t0 ++ t')
      | other => other
      end in
    match r1 with
    | Pending => (Pending, w1, t1)
    | _ =>
        match fin w1 with
        | (Ret _, w2, t2) => (r1, w2, t1 ++ t2)
        | (Throw e, w2, t2) => (Throw e, w2, t1 ++ t2)
        | (Pending, w2, t2) => (Pending, w2, t1 ++ t2)
        end
    end.

Inductive Reply : Type :=
| ReplyError (err : Err)
| ReplyResponse (statusCode : Z) (content_type content_length : JsStr) (body : string).

Inductive UploadReply : Type :=
| UploadRejected (err : Err)
| Uploaded (store' : list StoredFile) (uploadedFiles : list StoredFile).

(** The effectful collaborators: the [request] package (what the callback is
    called with), the upload service of the host (the file table it leaves and
    the array it resolves to) and the file system under [fs.writeFileSync]
    (the error it throws, if any). *)
Class Collaborators : Type := {
  request : World -> string -> Reply;
  upload : World -> UploadArgs -> User -> UploadReply;
  writeFileSync_error : World -> string -> option Err
}.

(* ================================================================== *)
(** ** The entity service on [plugin::upload.file] *)

Definition holds (c : Condition) (f : StoredFile) : bool :=
  match c with
  | HashPrefix p => JsString.startsWith (hash f) p
  | NameIs n => String.eqb (file_name f) n
  end.

(** The entries a query selects.  The entity service takes the condition
    from the [filters] parameter; [where] is not a parameter it reads, so a
    query that carries its condition there selects every entry. *)
Definition matches (q : Query) (f : StoredFile) : bool :=
  match param_filters q with
  | Some c => holds c f
  | None => true
  end.

(** [strapi.entityService.findOne('plugin::upload.file', id, ..)]: the entry
    or [null]. *)
Definition findOne (i : Z) : M MaybeFile :=
  fun w =>
    (Ret match find (fun f => Z.eqb (id f) i) (store w) with
         | Some f => JFile f
         | None => JNull
         end, w, [EvFindOne i]).

(** [strapi.entityService.findMany('plugin::upload.file', {.., limit: 1})] *)
Definition findMany (q : Query) : M (list StoredFile) :=
  fun w =>
    (Ret (firstn (param_limit q) (filter (matches q) (store w))), w, [EvFindMany q]).

(** [[file] = array]: the first element, [undefined] on the empty array. *)
Definition first_of (l : list StoredFile) : MaybeFile :=
  match l with
  | f :: _ => JFile f
  | [] => JUndefined
  end.

Record Filters : Type := {
  filter_id : option Z;
  filter_hash : JsStr;
  filter_name : JsStr
}.

Definition id_truthy (i : option Z) : bool :=
  match i with
  | Some n => negb (Z.eqb n 0)
  | None => false
  end.

(** The number held by a truthy id. *)
Definition id_value (i : option Z) : Z :=
  match i with
  | Some n => n
  | None => 0%Z
  end.

Definition findFile (filters : Filters) : M MaybeFile :=
  if id_truthy (filter_id filters) then findOne (id_value (filter_id filters))
  else if str_truthy (filter_hash filters) then
    files <- findMany (HashStartsWith (js_to_string (filter_hash filters) ++ "_")) ;;
    ret (first_of files)
  else if str_truthy (filter_name filters) then
    files <- findMany (NameEquals (js_to_string (filter_name filters))) ;;
    ret (first_of files)
  else ret JNull.

(* ================================================================== *)
(** ** Temporary files *)

(** [path.join(dir, name)] for a [name] without separators: an empty [name]
    adds nothing. *)
Definition path_join (dir name : string) : string :=
  if JsString.truthy name then String.append dir (String.append "/" name) else dir.

Section Resolver.
Context {B : Builtins} {C : Collaborators}.

(** [fse.mkdtemp] makes a fresh directory; [fs.writeFileSync] throws when
    the path is that directory itself (empty [name]) or when the file
    system refuses the write. *)
Definition writeFile (name content : string) : M string :=
  fun w =>
    let tmpWorkingDirectory :=
      String.append "/tmp/strapi-upload-" (JsString.show_nat (mkdtemp_count w)) in
    let w1 := {| store := store w; disk := disk w;
                 mkdtemp_count := S (mkdtemp_count w) |} in
    let filePath := path_join tmpWorkingDirectory name in
    let failure :=
      if JsString.truthy name then writeFileSync_error w1 filePath
      else Some (Error "EISDIR: illegal operation on a directory") in
    match failure with
    | Some err =>
        (Throw err, w1, [EvMkdtemp tmpWorkingDirectory; EvLogError err])
    | None =>
        (Ret filePath,
         {| store := store w1; disk := filePath :: disk w1;
            mkdtemp_count := mkdtemp_count w1 |},
         [EvMkdtemp tmpWorkingDirectory; EvWriteFile filePath])
    end.

Definition existsSync (filePath : string) (w : World) : bool :=
  existsb (String.eqb filePath) (disk w).

Definition deleteFileIfExists (filePath : JsStr) : M unit :=
  fun w =>
    match filePath with
    | Some p =>
        if (JsString.truthy p && existsSync p w)%bool then
          (Ret tt,
           {| store := store w;
              disk := filter (fun q => negb (String.eqb p q)) (disk w);
              mkdtemp_count := mkdtemp_count w |},
           [EvRmFile p])
        else (Ret tt, w, [])
    | None => (Ret tt, w, [])
    end.

(* ================================================================== *)
(** ** Fetching *)

Record FetchedFile : Type := {
  fetched_name : string;
  fetched_type : string;
  fetched_size : Z;
  fetched_path : string
}.

(** The body of the [async (err, res, body) => ..] callback once [err] is
    known to be absent; [Ret] is the value handed to [resolve]. *)
Definition fetch_callback (url : JsStr) (statusCode : Z)
    (content_type content_length : JsStr) (body : string) : M FetchedFile :=
  if ((statusCode <? 200) || (300 <=? statusCode))%Z%bool then
    throw (Error ("Tried to fetch file from url " ++ js_to_string url
                  ++ " but failed with status code " ++ JsString.show_Z statusCode))
  else
    match content_type with
    | None =>
        throw (TypeError "Cannot read properties of undefined (reading 'split')")
    | Some ct =>
        let type := JsString.shift (JsString.split ";" ct) in
        let size := to_int32 (parseInt content_length) in
        fileData <- lift (getFileDataFromRawUrl url) ;;
        filePath <- writeFile (name fileData) body ;;
        ret {| fetched_name := name fileData;
               fetched_type := type;
               fetched_size := size;
               fetched_path := filePath |}
    end.

(** The promise [fetchFile] returns.  [reject] is called on a transport
    error only ([request] reports a missing [url] the same way, without a
    GET); [resolve] at the end of the callback.  The callback is an [async]
    function: what it throws rejects the callback's own promise, which
    nobody awaits, and settles nothing. *)
Definition fetchFile (url : JsStr) : M FetchedFile :=
  fun w =>
    match url with
    | None => (Throw (Error "options.uri is a required argument"), w, [])
    | Some u =>
        match request w u with
        | ReplyError err => (Throw err, w, [EvRequest u])
        | ReplyResponse statusCode content_type content_length body =>
            match fetch_callback url statusCode content_type content_length body w with
            | (Ret file, w1, t1) => (Ret file, w1, EvRequest u :: t1)
            | (Throw e, w1, t1) =>
                (Pending, w1, EvRequest u :: t1 ++ [EvUnhandledRejection e])
            | (Pending, w1, t1) => (Pending, w1, EvRequest u :: t1)
            end
        end
    end.

Definition or_default (v : JsStr) (d : string) : string :=
  if str_truthy v then js_to_string v else d.

Record ImportArgs : Type := {
  arg_url : JsStr;
  arg_name : JsStr;
  arg_alternativeText : JsStr;
  arg_caption : JsStr
}.

(** The [try] block of [importFile] after [file] is assigned. *)
Definition upload_fetched (args : ImportArgs) (user : User) (file : FetchedFile)
  : M MaybeFile :=
  fun w =>
    let a := {| files_name := fetched_name file;
                files_type := fetched_type file;
                files_size := fetched_size file;
                files_path := fetched_path file;
                fileInfo_name := or_default (arg_name args) (fetched_name file);
                fileInfo_alternativeText :=
                  or_default (arg_alternativeText args) (fetched_name file);
                fileInfo_caption :=
                  or_default (arg_caption args) (fetched_name file) |} in
    match upload w a user with
    | UploadRejected err => (Throw err, w, [EvUpload a])
    | Uploaded store' uploadedFiles =>
        (Ret (first_of uploadedFiles),
         {| store := store'; disk := disk w; mkdtemp_count := mkdtemp_count w |},
         [EvUpload a])
    end.

(** [file] is declared before the [try]: it is still [undefined] in the
    [finally] block when [fetchFile] was rejected. *)
Definition importFile (args : ImportArgs) (user : User) : M MaybeFile :=
  fun w =>
    match fetchFile (arg_url args) w with
    | (Ret file, w1, t1) =>
        let '(r, w2, t2) :=
          try_catch_finally
            (upload_fetched args user file)
            (fun err => _ <- log_error err ;; throw err)
            (deleteFileIfExists (Some (fetched_path file))) w1 in
        (r, w2, t1 ++ t2)
    | (Throw e, w1, t1) =>
        let '(r, w2, t2) :=
          try_catch_finally
            (throw e)
            (fun err => _ <- log_error err ;; throw err)
            (deleteFileIfExists None) w1 in
        (r, w2, t1 ++ t2)
    | (Pending, w1, t1) => (Pending, w1, t1)
    end.

(* ================================================================== *)
(** ** Validation of a URL *)

Record CheckedFileData : Type := {
  fileName : string;
  rawUrl : JsStr;
  checked_hashPart : JsStr
}.

Record CheckResult : Type := {
  isValid : bool;
  fileData : CheckedFileData
}.

(** The [try] block of [isValidFileUrl]. *)
Definition check_url (url : JsStr) (allowedFileTypes : list string)
  : Exc CheckResult :=
  exc_bind (getFileDataFromRawUrl url) (fun data =>
  exc_bind (isExtensionAllowed (extension data) allowedFileTypes) (fun valid =>
  exc_bind (getHashPart url) (fun hp =>
  Ok {| isValid := valid;
        fileData := {| fileName := name data;
                       rawUrl := url;
                       checked_hashPart := Some hp |} |}))).

Definition isValidFileUrl (url : JsStr) (allowedFileTypes : list string)
  : M CheckResult :=
  match check_url url allowedFileTypes with
  | Ok result => ret result
  | Raise err =>
      _ <- log_error err ;;
      ret {| isValid := false;
             fileData := {| fileName := "";
                            rawUrl := Some "";
                            checked_hashPart := None |} |}
  end.

(* ================================================================== *)
(** ** The three ways to resolve a reference *)

Definition null_unless_allowed (file : MaybeFile) (allowedFileTypes : list string)
  : M MaybeFile :=
  match file with
  | JFile f =>
      allowed <- lift (isExtensionAllowed
                         (JsString.substring_from 1 (ext f)) allowedFileTypes) ;;
      if negb allowed then ret JNull else ret file
  | _ => ret file
  end.

Definition importById (i : Z) (allowedFileTypes : list string) : M MaybeFile :=
  file <- findFile {| filter_id := Some i; filter_hash := None;
                      filter_name := None |} ;;
  null_unless_allowed file allowedFileTypes.

Definition importByName (n : JsStr) (allowedFileTypes : list string)
  : M MaybeFile :=
  file <- findFile {| filter_id := None; filter_hash := None;
                      filter_name := n |} ;;
  null_unless_allowed file allowedFileTypes.

(** The properties [importByUrl] destructures from its first argument. *)
Record Descriptor : Type := {
  d_id : option Z;
  d_url : JsStr;
  d_name : JsStr;
  d_alternativeText : JsStr;
  d_caption : JsStr
}.

Definition importByUrl (d : Descriptor) (allowedFileTypes : list string)
    (user : User) : M MaybeFile :=
  checkResult <- isValidFileUrl (d_url d) allowedFileTypes ;;
  if negb (isValid checkResult) then ret JNull
  else
    file <- findFile {| filter_id := None;
                        filter_hash := Some (fileName (fileData checkResult));
                        filter_name := None |} ;;
    if negb (file_truthy file) then
      importFile {| arg_url := rawUrl (fileData checkResult);
                    arg_name := d_name d;
                    arg_alternativeText := d_alternativeText d;
                    arg_caption := d_caption d |} user
    else ret file.

(** A media reference as [findOrImportFile] tells them apart: a number, a
    string, an object, anything else. *)
Inductive FileRef : Type :=
| RefNumber (n : Z)
| RefString (s : string)
| RefObject (d : Descriptor)
| RefOther.

(** Destructuring [{ url, name, alternativeText, caption }] from a string
    primitive: a string has none of these properties. *)
Definition string_as_descriptor (s : string) : Descriptor :=
  {| d_id := None; d_url := None; d_name := None;
     d_alternativeText := None; d_caption := None |}.

(** Modelled from the spec: [isObjectSafe] of [libs/objects] is not among
    the sources.  The spec's media reference is a number or a descriptor
    object; [RefObject] stands for the values [isObjectSafe] accepts,
    [RefOther] for the rest, on which the function falls through and
    returns [undefined]. *)
Definition isObjectSafe (r : FileRef) : bool :=
  match r with
  | RefObject _ => true
  | _ => false
  end.

Definition findOrImportFile (fileData : FileRef) (user : User)
    (allowedFileTypes : list string) : M MaybeFile :=
  match fileData with
  | RefNumber n => importById n allowedFileTypes
  | RefString s => importByUrl (string_as_descriptor s) allowedFileTypes user
  | RefObject d =>
      if isObjectSafe fileData then
        let file := JNull in
        file <- (if (negb (file_truthy file) && id_truthy (d_id d))%bool
                 then importById (id_value (d_id d)) allowedFileTypes
                 else ret file) ;;
        file <- (if (negb (file_truthy file) && str_truthy (d_url d))%bool
                 then importByUrl d allowedFileTypes user
                 else ret file) ;;
        file <- (if (negb (file_truthy file) && str_truthy (d_name d))%bool
                 then importByName (d_name d) allowedFileTypes
                 else ret file) ;;
        ret file
      else ret JUndefined
  | RefOther => ret JUndefined
  end.

End Resolver.

(* ================================================================== *)
(** ** The admin export controller *)

Module ExportController.

Record RequestBody : Type := {
  slug : string;
  search : JsStr;
  applySearch : option bool;
  exportFormat : JsStr;
  relationsAsId : option bool;
  deepness : option Z
}.

Record ExportParams : Type := {
  p_slug : string;
  p_search : JsStr;
  p_applySearch : option bool;
  p_exportFormat : JsStr;
  p_relationsAsId : option bool;
  p_deepness : Z
}.

(** The host services the controller calls: the permission checker of the
    content manager and the export service of the plugin. *)
Class Host : Type := {
  Ability : Type;
  Data : Type;
  can_read : Ability -> string -> bool;
  export_service : ExportParams -> Exc Data
}.

Section Controller.
Context {H : Host}.

Record Ctx : Type := {
  request_body : RequestBody;
  state_userAbility : Ability
}.

Inductive Call : Type :=
| CallCanRead (model : string)
| CallForbidden
| CallExportData (p : ExportParams).

(** What the handler leaves: the forbidden response, [ctx.body = { data }],
    or the error the service threw. *)
Inductive Response : Type :=
| Forbidden
| Body (data : Data)
| Thrown (e : Err).

Definition hasPermissions (ctx : Ctx) : bool * list Call :=
  let slug := slug (request_body ctx) in
  (can_read (state_userAbility ctx) slug, [CallCanRead slug]).

Definition exportData (ctx : Ctx) : Response * list Call :=
  let '(permitted, t) := hasPermissions ctx in
  if negb permitted then (Forbidden, t ++ [CallForbidden])
  else
    let b := request_body ctx in
    let p := {| p_slug := slug b;
                p_search := search b;
                p_applySearch := applySearch b;
                p_exportFormat := exportFormat b;
                p_relationsAsId := relationsAsId b;
                p_deepness := match deepness b with
                              | Some n => n
                              | None => 5%Z
                              end |} in
    match export_service p with
    | Ok data => (Body data, t ++ [CallExportData p])
    | Raise e => (Thrown e, t ++ [CallExportData p])
    end.

Definition is_export_call (c : Call) : bool :=
  match c with
  | CallExportData _ => true
  | _ => false
  end.

End Controller.

End ExportController.

(* ================================================================== *)
(** ** The specification's wording, to compare the code with *)

(** The allowed file types of the specification, an enumeration. *)
Inductive FileType : Type := audios | images | videos | files.

Definition type_name (t : FileType) : string :=
  match t with
  | audios => "audios"
  | images => "images"
  | videos => "videos"
  | files => "files"
  end.

(** "audios: mp3/wav/ogg; images: png/gif/jpg/jpeg/svg/bmp/tif/tiff;
    videos: mp4/avi; files: any extension" *)
Definition accepts (t : FileType) (e : string) : Prop :=
  match t with
  | audios => In e ["mp3"; "wav"; "ogg"]
  | images => In e ["png"; "gif"; "jpg"; "jpeg"; "svg"; "bmp"; "tif"; "tiff"]
  | videos => In e ["mp4"; "avi"]
  | files => True
  end.

(** "Resolution order, first match wins": the ways that apply are tried in
    order until one yields a stored file; [file] is the result so far. *)
Fixpoint first_match (file : MaybeFile) (ways : list (bool * M MaybeFile))
  : M MaybeFile :=
  match ways with
  | [] => ret file
  | (applies, way) :: rest =>
      if file_truthy file then ret file
      else if applies then (found <- way ;; first_match found rest)
      else first_match file rest
  end.

Definition resolution_order {B : Builtins} {C : Collaborators}
    (d : Descriptor) (user : User) (allowedFileTypes : list string)
  : list (bool * M MaybeFile) :=
  [ (id_truthy (d_id d), importById (id_value (d_id d)) allowedFileTypes);
    (str_truthy (d_url d), importByUrl d allowedFileTypes user);
    (str_truthy (d_name d), importByName (d_name d) allowedFileTypes) ].

Definition is_request (e : Event) : bool :=
  match e with EvRequest _ => true | _ => false end.
Definition is_upload (e : Event) : bool :=
  match e with EvUpload _ => true | _ => false end.
Definition is_lookup (e : Event) : bool :=
  match e with EvFindOne _ | EvFindMany _ => true | _ => false end.

(* ================================================================== *)
(** ** An instance of the built-ins for plain URLs *)

(** [PlainUrl] answers for ASCII URLs [scheme://host/path?query#fragment]
    whose path the URL parser leaves as it is (lower-case letters, digits,
    [-], [_], [.], [/]; no dot segments), for escapes of ASCII characters and
    for slugs of strings without capitals.  That is the range of the
    evaluations below; the general theorems do not depend on it. *)
Module PlainUrl.

Definition is_digit (c : ascii) : bool :=
  let n := nat_of_ascii c in (Nat.leb 48 n && Nat.leb n 57)%bool.
Definition is_lower (c : ascii) : bool :=
  let n := nat_of_ascii c in (Nat.leb 97 n && Nat.leb n 122)%bool.
Definition is_alpha (c : ascii) : bool := (JsString.is_upper c || is_lower c)%bool.
Definition is_alnum (c : ascii) : bool := (is_alpha c || is_digit c)%bool.

Definition hex_value (c : ascii) : option nat :=
  let n := nat_of_ascii c in
  if is_digit c then Some (n - 48)
  else if (Nat.leb 65 n && Nat.leb n 70)%bool then Some (n - 55)
  else if (Nat.leb 97 n && Nat.leb n 102)%bool then Some (n - 87)
  else None.

(** Escapes of ASCII characters only. *)
Fixpoint decode (s : string) : option string :=
  match s with
  | EmptyString => Some EmptyString
  | String c r =>
      if Ascii.eqb c "%" then
        match r with
        | String h (String l r') =>
            match hex_value h, hex_value l with
            | Some a, Some b =>
                if Nat.ltb (16 * a + b) 128
                then option_map (String (ascii_of_nat (16 * a + b))) (decode r')
                else None
            | _, _ => None
            end
        | _ => None
        end
      else option_map (String c) (decode r)
  end.

(** The rest of [s] after a scheme [alpha (alnum | + | - | .)* :]. *)
Fixpoint after_scheme (s : string) : option string :=
  match s with
  | EmptyString => None
  | String c r =>
      if Ascii.eqb c ":" then Some r
      else if (is_alnum c || Ascii.eqb c "+" || Ascii.eqb c "-" || Ascii.eqb c ".")%bool
      then after_scheme r
      else None
  end.

Fixpoint until_any (stops : list ascii) (s : string) : string :=
  match s with
  | EmptyString => EmptyString
  | String c r =>
      if existsb (Ascii.eqb c) stops then EmptyString
      else String c (until_any stops r)
  end.

Fixpoint from_any (stops : list ascii) (s : string) : string :=
  match s with
  | EmptyString => EmptyString
  | String c r => if existsb (Ascii.eqb c) stops then s else from_any stops r
  end.

Definition pathname (s : string) : option string :=
  match s with
  | EmptyString => None
  | String c _ =>
      if is_alpha c then
        match after_scheme s with
        | Some (String "/" (String "/" r)) =>
            let host := until_any ["/"; "?"; "#"]%char r in
            let path := until_any ["?"; "#"]%char (from_any ["/"; "?"; "#"]%char r) in
            if JsString.truthy host
            then Some (if JsString.truthy path then path else "/")
            else None
        | Some r => Some (until_any ["?"; "#"]%char r)
        | None => None
        end
      else None
  end.

Fixpoint replace_amp (s : string) : string :=
  match s with
  | EmptyString => EmptyString
  | String c r =>
      if Ascii.eqb c "&" then String.append " and " (replace_amp r)
      else String c (replace_amp r)
  end.

(** [s.replace(/[^a-zA-Z\d]+/g, '_')] *)
Fixpoint separate (in_run : bool) (s : string) : string :=
  match s with
  | EmptyString => EmptyString
  | String c r =>
      if is_alnum c then String c (separate false r)
      else if in_run then separate true r
      else String "_" (separate true r)
  end.

(** The package on a string without capitals: the built-in replacement of
    ampersand, every run of other characters to one separator, no separator
    at either end. *)
Definition slug (s : string) : string :=
  JsString.trim (separate false (replace_amp s)) "_".

Fixpoint leading_digits (s : string) (acc : option Z) : option Z :=
  match s with
  | EmptyString => acc
  | String c r =>
      if is_digit c then
        leading_digits r
          (Some (10 * match acc with Some n => n | None => 0 end
                 + Z.of_nat (nat_of_ascii c - 48))%Z)
      else acc
  end.

Definition parse_int (v : JsStr) : option Z := leading_digits (js_to_string v) None.

End PlainUrl.

Definition plain_builtins : Builtins :=
  {| decodeURIComponent := PlainUrl.decode;
     URL_pathname := PlainUrl.pathname;
     slugify := PlainUrl.slug;
     parseInt := PlainUrl.parse_int |}.

(* ================================================================== *)
(** ** A host for the evaluations *)

Module Demo.

Definition ends_with (s suffix : string) : bool :=
  String.eqb
    (String.substring (String.length s - String.length suffix)
       (String.length suffix) s)
    suffix.

(** [path.extname] *)
Definition extname (filename : string) : string :=
  if JsString.contains "." filename
  then String.append "." (JsString.pop (JsString.split "." filename))
  else EmptyString.

(** [path.basename(name, ext)] on a name without directories. *)
Definition basename (n e : string) : string :=
  if (JsString.truthy e && ends_with n e)%bool
  then String.substring 0 (String.length n - String.length e) n
  else n.

(** The server answers for [https://x/y/pic.png], has nothing at
    [https://x/gone.png] and no server listens at [https://down]. *)
Definition demo_request (w : World) (url : string) : Reply :=
  if String.eqb url "https://x/y/pic.png" then
    ReplyResponse 200 (Some "image/png; charset=binary") (Some "2048") "PNG"
  else if String.eqb url "https://down/pic.png" then
    ReplyError (Error "connect ECONNREFUSED")
  else ReplyResponse 404 (Some "text/html") None "Not Found".

(** An upload service that names the hash the way [getHashPart] expects a
    stored hash to look: the slug (separator [_], case kept) of the name
    without its extension, an underscore, a suffix that makes it unique. *)
Definition demo_upload (w : World) (a : UploadArgs) (u : User) : UploadReply :=
  let e := extname (files_name a) in
  let suffix := JsString.show_nat (S (List.length (store w))) in
  let f := {| id := Z.of_nat (S (List.length (store w)));
              hash := String.append (PlainUrl.slug (basename (fileInfo_name a) e))
                        (String.append "_" suffix);
              ext := e;
              file_name := fileInfo_name a |} in
  Uploaded (store w ++ [f]) [f].

Definition demo_collaborators : Collaborators :=
  {| request := demo_request;
     upload := demo_upload;
     writeFileSync_error := fun _ _ => None |}.

Definition empty_world : World :=
  {| store := []; disk := []; mkdtemp_count := 0 |}.

Definition someone : User := {| user_id := 1 |}.

Definition by_url (u : string) : Descriptor :=
  {| d_id := None; d_url := Some u; d_name := None;
     d_alternativeText := None; d_caption := None |}.

End Demo.

(** The evaluations: the functions at the plain built-ins and the
    demonstration host, a picture resolved twice, a stored document, an export
    request without read permission. *)
Module Run.

Definition resolve : FileRef -> User -> list string -> M MaybeFile :=
  @findOrImportFile plain_builtins Demo.demo_collaborators.

Definition resolve_by_url : Descriptor -> list string -> User -> M MaybeFile :=
  @importByUrl plain_builtins Demo.demo_collaborators.

Definition fetch : JsStr -> M FetchedFile :=
  @fetchFile plain_builtins Demo.demo_collaborators.

Definition hash_part : JsStr -> Exc string := @getHashPart plain_builtins.

Definition pic_url : string := "https://x/y/pic.png".
Definition pic : Descriptor := Demo.by_url pic_url.


(** The same reference resolved twice, the second time in the world the first
    resolution left. *)
Definition first_run : Outcome MaybeFile * World * list Event :=
  resolve_by_url pic ["images"] Demo.someone Demo.empty_world.

Definition pic_check : CheckResult :=
  {| isValid := true;
     fileData := {| fileName := "y-pic.png";
                    rawUrl := Some pic_url;
                    checked_hashPart := Some "y_pic" |} |}.

(** The import of the picture alone, as [importByUrl] starts it. *)
Definition pic_args : ImportArgs :=
  {| arg_url := Some pic_url; arg_name := None;
     arg_alternativeText := None; arg_caption := None |}.
Definition import_pic : Outcome MaybeFile * World * list Event :=
  @importFile plain_builtins Demo.demo_collaborators pic_args Demo.someone
    Demo.empty_world.
Definition pic_tmp : string := "/tmp/strapi-upload-0/y-pic.png".

Definition installer : Descriptor := Demo.by_url "https://x/setup.exe".

Definition pdf : StoredFile :=
  {| id := 7; hash := "report_7"; ext := ".pdf"; file_name := "report.pdf" |}.

Definition archive : World := {| store := [pdf]; disk := []; mkdtemp_count := 0 |}.

Definition demo_host : ExportController.Host :=
  {| ExportController.Ability := bool;
     ExportController.Data := string;
     ExportController.can_read := fun ability _ => ability;
     ExportController.export_service := fun _ => Ok "[]" |}.

Definition denied : @ExportController.Ctx demo_host :=
  @ExportController.Build_Ctx demo_host
    {| ExportController.slug := "api::article.article";
       ExportController.search := None;
       ExportController.applySearch := None;
       ExportController.exportFormat := Some "json";
       ExportController.relationsAsId := None;
       ExportController.deepness := None |}
    false.

End Run.

(* ================================================================== *)
(** ** Notions the statements use *)

(** The checker of an allowed file type of the specification. *)
Definition checker_of (t : FileType) : string -> bool :=
  match t with
  | audios => fun e => includes ALLOWED_AUDIOS e
  | images => fun e => includes ALLOWED_IMAGES e
  | videos => fun e => includes ALLOWED_VIDEOS e
  | files => fun _ => true
  end.

(** [m] makes no GET and no upload and leaves the world as it was. *)
Definition quiet {A} (m : M A) : Prop :=
  forall w r w' t,
    m w = (r, w', t) ->
    w' = w /\ existsb is_request t = false /\ existsb is_upload t = false.

(** The first entry of the file table that answers the query, as a lookup
    with [limit: 1] hands it back. *)
Definition found (q : Query) (w : World) : MaybeFile :=
  match find (matches q) (store w) with
  | Some f => JFile f
  | None => JUndefined
  end.

(** The result of the [catch] branch of [isValidFileUrl]. *)
Definition invalid_result : CheckResult :=
  {| isValid := false;
     fileData := {| fileName := ""; rawUrl := Some ""; checked_hashPart := None |} |}.

Definition only_id (i : Z) : Descriptor :=
  {| d_id := Some i; d_url := None; d_name := None;
     d_alternativeText := None; d_caption := None |}.

Definition only_name (n : string) : Descriptor :=
  {| d_id := None; d_url := None; d_name := Some n;
     d_alternativeText := None; d_caption := None |}.

(** [res.statusCode < 200 || 300 <= res.statusCode] *)
Definition bad_status (statusCode : Z) : bool :=
  ((statusCode <? 200) || (300 <=? statusCode))%Z%bool.

Definition status_error (u : string) (statusCode : Z) : Err :=
  Error ("Tried to fetch file from url " ++ u
         ++ " but failed with status code " ++ JsString.show_Z statusCode).

(** The argument [importByUrl] hands to [importFile]. *)
Definition import_args (d : Descriptor) (result : CheckResult) : ImportArgs :=
  {| arg_url := rawUrl (fileData result);
     arg_name := d_name d;
     arg_alternativeText := d_alternativeText d;
     arg_caption := d_caption d |}.

(** The answer the specification describes for a rejected URL: [importByUrl]
    returns [null] after at most a logged error, and [findOrImportFile] on the
    descriptor makes no GET and no upload, leaves the world as it was and
    returns [null] when the descriptor has no id and no name to fall back
    on. *)
Definition rejected_without_fetch {B : Builtins} {C : Collaborators}
    (d : Descriptor) (allowedFileTypes : list string) (user : User) (w : World)
  : Prop :=
  (exists t, importByUrl d allowedFileTypes user w = (Ret JNull, w, t)
             /\ (forall e, In e t -> exists err, e = EvLogError err))
  /\ (forall r w' t,
        findOrImportFile (RefObject d) user allowedFileTypes w = (r, w', t) ->
        w' = w /\ existsb is_request t = false /\ existsb is_upload t = false
        /\ (id_truthy (d_id d) = false -> str_truthy (d_name d) = false ->
            r = Ret JNull)).

(* ================================================================== *)
(** ** The plugin configuration *)

Module Config.

(** The values a configuration property can hold. *)
Inductive JsValue : Type :=
| VUndefined
| VNull
| VBool (b : bool)
| VNumber (n : Z)
| VString (s : string).

Record Settings : Type := {
  serverPublicHostname : JsValue;
  ignoreExtensionCheck : JsValue;
  importUniqueIdentifierField : JsValue
}.

(** [default] *)
Definition default : Settings :=
  {| serverPublicHostname := VString "";
     ignoreExtensionCheck := VBool false;
     importUniqueIdentifierField := VUndefined |}.

(** What [validator] is called with: nothing, [null], or an object. *)
Inductive Arg : Type :=
| ArgUndefined
| ArgNull
| ArgObject (settings : Settings).

(** [typeof v !== 'string'] *)
Definition not_a_string (v : JsValue) : bool :=
  match v with
  | VString _ => false
  | _ => true
  end.

(** [({ serverPublicHostname } = {}) => ..]: the default [{}] stands in for
    an absent argument only; [null] cannot be destructured. *)
Definition validator (arg : Arg) : Exc unit :=
  match arg with
  | ArgNull =>
      Raise (TypeError "Cannot destructure property 'serverPublicHostname' of 'object null' as it is null.")
  | ArgUndefined =>
      if not_a_string VUndefined
      then Raise (Error "serverPublicHostname has to be a string.")
      else Ok tt
  | ArgObject settings =>
      if not_a_string (serverPublicHostname settings)
      then Raise (Error "serverPublicHostname has to be a string.")
      else Ok tt
  end.

End Config.

(* ================================================================== *)
(** ** Notions the further statements use *)

(** How many events of a kind a trace holds. *)
Definition count (kind : Event -> bool) (t : list Event) : nat :=
  List.length (filter kind t).

(** [m] makes at most [n] GETs, and never more uploads than GETs. *)
Definition within_budget {A} (n : nat) (m : M A) : Prop :=
  forall w r w' t,
    m w = (r, w', t) ->
    (count is_upload t <= count is_request t)%nat /\ (count is_request t <= n)%nat.

(** The argument [importFile] hands to the upload service. *)
Definition upload_request (args : ImportArgs) (file : FetchedFile) : UploadArgs :=
  {| files_name := fetched_name file;
     files_type := fetched_type file;
     files_size := fetched_size file;
     files_path := fetched_path file;
     fileInfo_name := or_default (arg_name args) (fetched_name file);
     fileInfo_alternativeText :=
       or_default (arg_alternativeText args) (fetched_name file);
     fileInfo_caption := or_default (arg_caption args) (fetched_name file) |}.

(** Further hosts and worlds for the evaluations. *)
Module Cases.

(** A server that answers 200 without a content type. *)
Definition headerless : Collaborators :=
  {| request := fun _ _ => ReplyResponse 200 None (Some "3") "abc";
     upload := Demo.demo_upload;
     writeFileSync_error := fun _ _ => None |}.

(** An upload service that refuses every file. *)
Definition refusing : Collaborators :=
  {| request := Demo.demo_request;
     upload := fun _ _ _ => UploadRejected (Error "File size too large");
     writeFileSync_error := fun _ _ => None |}.

(** A file table whose entry carries the hash prefix the lookup asks for. *)
Definition named_hash : StoredFile :=
  {| id := 3; hash := "y-pic.png_3"; ext := ".png"; file_name := "y-pic.png" |}.

Definition gallery : World :=
  {| store := [named_hash]; disk := ["/tmp/other.txt"]; mkdtemp_count := 4 |}.

Definition logo : StoredFile :=
  {| id := 9; hash := "logo_9"; ext := ".png"; file_name := "logo.png" |}.

Definition assets : World := {| store := [logo]; disk := []; mkdtemp_count := 0 |}.

(** A descriptor with an id and a url, one with a rejected url and a name. *)
Definition logo_or_pic : Descriptor :=
  {| d_id := Some 9%Z; d_url := Some Run.pic_url; d_name := None;
     d_alternativeText := None; d_caption := None |}.

Definition installer_or_logo : Descriptor :=
  {| d_id := None; d_url := Some "https://x/setup.exe"; d_name := Some "logo.png";
     d_alternativeText := None; d_caption := None |}.

(** A server that answers every GET with a picture. *)
Definition generous : Collaborators :=
  {| request := fun _ _ =>
       ReplyResponse 200 (Some "image/png") (Some "3") "abc";
     upload := Demo.demo_upload;
     writeFileSync_error := fun _ _ => None |}.

(** The root of a site: a pathname of slashes only. *)
Definition root : Descriptor := Demo.by_url "https://x/".

Definition root_check : CheckResult :=
  {| isValid := true;
     fileData := {| fileName := "";
                    rawUrl := Some "https://x/";
                    checked_hashPart := Some "" |} |}.

Definition unreachable : Descriptor := Demo.by_url "https://down/pic.png".

Definition unreachable_check : CheckResult :=
  {| isValid := true;
     fileData := {| fileName := "pic.png";
                    rawUrl := Some "https://down/pic.png";
                    checked_hashPart := Some "pic" |} |}.

Definition fetched_pic : FetchedFile :=
  {| fetched_name := "y-pic.png"; fetched_type := "image/png";
     fetched_size := 2048; fetched_path := Run.pic_tmp |}.

Definition after_fetch : World :=
  {| store := []; disk := [Run.pic_tmp]; mkdtemp_count := 1 |}.

Definition granted : @ExportController.Ctx Run.demo_host :=
  @ExportController.Build_Ctx Run.demo_host
    {| ExportController.slug := "api::article.article";
       ExportController.search := None;
       ExportController.applySearch := None;
       ExportController.exportFormat := Some "json";
       ExportController.relationsAsId := None;
       ExportController.deepness := None |}
    true.

End Cases.

(* ================================================================== *)
(** * Proofs *)

Ltac split_if :=
  match goal with
  | |- context [if ?c then _ else _] => destruct c
  end.

(* ================================================================== *)
(** ** Strings: the last dot-segment *)

Lemma split_no_separator (c : ascii) (s : string) :
  JsString.contains c s = false -> JsString.split c s = [s].
Proof.
  induction s as [|a r IH]; simpl; [reflexivity|].
  destruct (Ascii.eqb a c); simpl; [discriminate|].
  intros Hr. rewrite (IH Hr). reflexivity.
Qed.

Lemma split_at_last_separator (c : ascii) (p q : string) :
  JsString.contains c q = false ->
  exists h t, JsString.split c (String.append p (String c q)) = h :: t
              /\ t <> [] /\ last t EmptyString = q.
Proof.
  intros Hq. induction p as [|a r IH]; simpl.
  - rewrite Ascii.eqb_refl, (split_no_separator _ _ Hq).
    exists EmptyString, [q]. repeat split. discriminate.
  - destruct IH as (h & t & E & Hne & Hlast). rewrite E.
    destruct (Ascii.eqb a c).
    + exists EmptyString, (h :: t). repeat split; [discriminate|].
      destruct t; [contradiction|exact Hlast].
    + exists (String a h), t. repeat split; assumption.
Qed.

Lemma pop_split_suffix (c : ascii) (p q : string) :
  JsString.contains c q = false ->
  JsString.pop (JsString.split c (String.append p (String c q))) = q.
Proof.
  intros Hq. destruct (split_at_last_separator c p q Hq) as (h & t & E & Hne & Hlast).
  unfold JsString.pop. rewrite E. destruct t; [contradiction|exact Hlast].
Qed.

(* ================================================================== *)
(** ** Strings: the pathname without its extension *)

Lemma length_append (p r : string) :
  String.length (String.append p r) = (String.length p + String.length r)%nat.
Proof. induction p as [|a p IH]; simpl; [reflexivity|now rewrite IH]. Qed.

Lemma substring_prefix (p r : string) :
  String.substring 0 (String.length p) (String.append p r) = p.
Proof.
  induction p as [|a p IH]; simpl.
  - destruct r; reflexivity.
  - now rewrite IH.
Qed.

Lemma lastIndexOf_from_absent (c : ascii) (s : string) (i acc : Z) :
  JsString.contains c s = false -> JsString.lastIndexOf_from c s i acc = acc.
Proof.
  revert i acc. induction s as [|a r IH]; intros i acc; simpl; [reflexivity|].
  destruct (Ascii.eqb a c); simpl; [discriminate|]. intros Hr. now apply IH.
Qed.

Lemma lastIndexOf_from_last (c : ascii) (p q : string) (i acc : Z) :
  JsString.contains c q = false ->
  JsString.lastIndexOf_from c (String.append p (String c q)) i acc
  = (i + Z.of_nat (String.length p))%Z.
Proof.
  intros Hq. revert i acc. induction p as [|a p IH]; intros i acc.
  - simpl. rewrite Ascii.eqb_refl, (lastIndexOf_from_absent _ _ _ _ Hq). lia.
  - cbn [String.append JsString.lastIndexOf_from String.length]. rewrite IH. lia.
Qed.

(** The slug is taken of the pathname up to its last dot. *)
Lemma without_extension_strips (p q : string) :
  p <> EmptyString ->
  JsString.contains "." q = false ->
  without_extension (String.append p (String "." q)) = p.
Proof.
  intros Hp Hq. unfold without_extension, JsString.lastIndexOf.
  rewrite (lastIndexOf_from_last _ _ _ _ _ Hq).
  unfold JsString.substring, JsString.clamp. rewrite length_append. simpl String.length.
  replace (Z.to_nat (Z.min (Z.max 0 0) _)) with 0%nat by lia.
  replace (Z.to_nat (Z.min (Z.max (0 + Z.of_nat (String.length p)) 0) _))
    with (String.length p) by lia.
  rewrite Nat.min_0_l, Nat.max_0_l, Nat.sub_0_r, substring_prefix.
  apply String.eqb_neq in Hp. unfold JsString.truthy. now rewrite Hp.
Qed.

(* ================================================================== *)
(** ** The allow check *)

Lemma getFileTypeChecker_known (t : FileType) :
  getFileTypeChecker (type_name t) = Ok (Callable (fun e => Ok (checker_of t e))).
Proof. destruct t; reflexivity. Qed.

Lemma includes_In (l : list string) (e : string) :
  includes l e = true <-> In e l.
Proof.
  unfold includes. rewrite existsb_exists. split.
  - intros (x & Hx & E). apply String.eqb_eq in E. subst. exact Hx.
  - intros H. exists e. split; [exact H|apply String.eqb_refl].
Qed.

Lemma checker_accepts (t : FileType) (e : string) :
  checker_of t e = true <-> accepts t e.
Proof.
  destruct t; try exact (includes_In _ e). simpl. split; trivial.
Qed.

Lemma isExtensionAllowed_known (e : string) (ts : list FileType) :
  isExtensionAllowed e (map type_name ts)
  = Ok (existsb (fun t => checker_of t e) ts).
Proof.
  unfold isExtensionAllowed.
  assert (E : exc_map getFileTypeChecker (map type_name ts)
              = Ok (map (fun t => Callable (fun x => Ok (checker_of t x))) ts)).
  { induction ts as [|t r IH]; simpl; [reflexivity|].
    rewrite getFileTypeChecker_known. simpl. rewrite IH. reflexivity. }
  rewrite E. cbn [exc_bind]. clear E.
  induction ts as [|t r IH]; simpl; [reflexivity|].
  destruct (checker_of t e); simpl; [reflexivity|exact IH].
Qed.

(** C8. The allow check accepts an extension exactly when some entry of the
    allowed file types accepts it, where audios accepts mp3, wav and ogg,
    images accepts png, gif, jpg, jpeg, svg, bmp, tif and tiff, videos accepts
    mp4 and avi, and files accepts every extension; on a list of these types
    the check never throws. *)
Theorem isExtensionAllowed_iff_some_entry_accepts :
  forall (e : string) (ts : list FileType),
    exists b, isExtensionAllowed e (map type_name ts) = Ok b
              /\ (b = true <-> exists t, In t ts /\ accepts t e).
Proof.
  intros e ts. exists (existsb (fun t => checker_of t e) ts). split.
  - apply isExtensionAllowed_known.
  - rewrite existsb_exists. split.
    + intros (t & Ht & Hc). exists t. split; [exact Ht|]. now apply checker_accepts.
    + intros (t & Ht & Ha). exists t. split; [exact Ht|]. now apply checker_accepts.
Qed.

Lemma exe_is_no_image (p : string) :
  isExtensionAllowed (derived_extension (String.append p ".exe")) ["images"]
  = Ok false.
Proof.
  unfold derived_extension.
  change (String.append p ".exe") with (String.append p (String "." "exe")).
  rewrite pop_split_suffix; reflexivity.
Qed.

(* ================================================================== *)
(** ** Laws of the computations *)

Lemma bind_ret_l {A B} (a : A) (k : A -> M B) (w : World) :
  bind (ret a) k w = k a w.
Proof. unfold bind, ret. destruct (k a w) as [[r w'] t]. reflexivity. Qed.

Lemma bind_ret_r {A} (m : M A) (w : World) : bind m (fun a => ret a) w = m w.
Proof.
  unfold bind, ret. destruct (m w) as [[[a|e|] w'] t]; try reflexivity.
  now rewrite app_nil_r.
Qed.

Lemma bind_ext {A B} (m : M A) (k k' : A -> M B) (w : World) :
  (forall a w1, k a w1 = k' a w1) -> bind m k w = bind m k' w.
Proof.
  intros H. unfold bind. destruct (m w) as [[[a|e|] w'] t]; try reflexivity.
  now rewrite H.
Qed.

Lemma first_match_cons (f : MaybeFile) (applies : bool) (way : M MaybeFile)
    (rest : list (bool * M MaybeFile)) :
  first_match f ((applies, way) :: rest)
  = if file_truthy f then ret f
    else if applies then bind way (fun found => first_match found rest)
    else first_match f rest.
Proof. reflexivity. Qed.

(* ================================================================== *)
(** ** Computations that leave the world alone *)

Lemma quiet_ret {A} (a : A) : quiet (ret a).
Proof. intros w r w' t E. inversion E. auto. Qed.

Lemma quiet_throw {A} (e : Err) : quiet (@throw A e).
Proof. intros w r w' t E. inversion E. auto. Qed.

Lemma quiet_lift {A} (x : Exc A) : quiet (lift x).
Proof. destruct x; [apply quiet_ret|apply quiet_throw]. Qed.

Lemma quiet_bind {A B} (m : M A) (k : A -> M B) :
  quiet m -> (forall a, quiet (k a)) -> quiet (bind m k).
Proof.
  intros Hm Hk w r w' t. unfold bind.
  destruct (m w) as [[r1 w1] t1] eqn:E1.
  destruct (Hm _ _ _ _ E1) as (-> & Hr & Hu).
  destruct r1 as [a|e|].
  - destruct (k a w) as [[r2 w2] t2] eqn:E2.
    destruct (Hk a _ _ _ _ E2) as (-> & Hr2 & Hu2).
    intros E. inversion E; subst. rewrite !existsb_app, Hr, Hu, Hr2, Hu2. auto.
  - intros E. inversion E; subst. auto.
  - intros E. inversion E; subst. auto.
Qed.

Lemma quiet_findOne (i : Z) : quiet (findOne i).
Proof. intros w r w' t E. inversion E. auto. Qed.

Lemma quiet_findMany (q : Query) : quiet (findMany q).
Proof. intros w r w' t E. inversion E. auto. Qed.

Lemma quiet_findFile (filters : Filters) : quiet (findFile filters).
Proof.
  unfold findFile.
  destruct (id_truthy _); [apply quiet_findOne|].
  destruct (str_truthy (filter_hash filters)).
  { apply quiet_bind; [apply quiet_findMany|intros; apply quiet_ret]. }
  destruct (str_truthy (filter_name filters)).
  { apply quiet_bind; [apply quiet_findMany|intros; apply quiet_ret]. }
  apply quiet_ret.
Qed.

Lemma quiet_null_unless_allowed (file : MaybeFile) (allowedFileTypes : list string) :
  quiet (null_unless_allowed file allowedFileTypes).
Proof.
  destruct file; try apply quiet_ret. simpl.
  apply quiet_bind; [apply quiet_lift|]. intros []; apply quiet_ret.
Qed.

Lemma quiet_importById (i : Z) (allowedFileTypes : list string) :
  quiet (importById i allowedFileTypes).
Proof.
  apply quiet_bind; [apply quiet_findFile|intros; apply quiet_null_unless_allowed].
Qed.

Lemma quiet_importByName (n : JsStr) (allowedFileTypes : list string) :
  quiet (importByName n allowedFileTypes).
Proof.
  apply quiet_bind; [apply quiet_findFile|intros; apply quiet_null_unless_allowed].
Qed.

(* ================================================================== *)
(** ** Lookups in the file table *)

Lemma first_of_filter (q : StoredFile -> bool) (l : list StoredFile) :
  first_of (firstn 1 (filter q l))
  = match find q l with
    | Some f => JFile f
    | None => JUndefined
    end.
Proof.
  induction l as [|f r IH]; simpl; [reflexivity|].
  destruct (q f); [reflexivity|exact IH].
Qed.

Lemma findFile_by_name (n : string) (w : World) :
  n <> EmptyString ->
  findFile {| filter_id := None; filter_hash := None; filter_name := Some n |} w
  = (Ret (found (NameEquals n) w), w, [EvFindMany (NameEquals n)]).
Proof.
  intros Hn. apply String.eqb_neq in Hn.
  unfold findFile, found. cbn -[firstn first_of]. unfold JsString.truthy. rewrite Hn.
  cbn -[firstn first_of]. now rewrite first_of_filter.
Qed.

Lemma findFile_by_hash (h : string) (w : World) :
  h <> EmptyString ->
  findFile {| filter_id := None; filter_hash := Some h; filter_name := None |} w
  = (Ret (found (HashStartsWith (String.append h "_")) w), w,
     [EvFindMany (HashStartsWith (String.append h "_"))]).
Proof.
  intros Hn. apply String.eqb_neq in Hn.
  unfold findFile, found. cbn -[firstn first_of]. unfold JsString.truthy. rewrite Hn.
  cbn -[firstn first_of String.append]. now rewrite first_of_filter.
Qed.

(** A lookup by hash finds the first entry of the file table, whatever its
    hash: the condition travels under a key the entity service does not
    read. *)
Lemma found_by_hash (prefix : string) (w : World) :
  found (HashStartsWith prefix) w
  = match store w with
    | f :: _ => JFile f
    | [] => JUndefined
    end.
Proof. unfold found. destruct (store w); reflexivity. Qed.

(* ================================================================== *)
(** ** Validation and resolution by URL *)

Section UrlFacts.
Context {B : Builtins} {C : Collaborators}.

Lemma isValidFileUrl_run (url : JsStr) (allowedFileTypes : list string) (w : World) :
  isValidFileUrl url allowedFileTypes w
  = match check_url url allowedFileTypes with
    | Ok result => (Ret result, w, [])
    | Raise err => (Ret invalid_result, w, [EvLogError err])
    end.
Proof.
  unfold isValidFileUrl. destruct (check_url url allowedFileTypes); reflexivity.
Qed.

Lemma check_url_extension (url : JsStr) (allowedFileTypes : list string)
    (pathname : string) (result : CheckResult) :
  parsed_pathname url = Ok pathname ->
  check_url url allowedFileTypes = Ok result ->
  isExtensionAllowed (derived_extension pathname) allowedFileTypes
  = Ok (isValid result).
Proof.
  intros Hp. unfold check_url, getFileDataFromRawUrl. rewrite Hp. simpl.
  destruct (getHashPart url) as [hp|e]; simpl; [|discriminate].
  destruct (isExtensionAllowed _ _) as [b|e]; simpl; [|discriminate].
  intros E. inversion E. reflexivity.
Qed.

Lemma check_url_hashPart (url : JsStr) (allowedFileTypes : list string)
    (result : CheckResult) :
  check_url url allowedFileTypes = Ok result ->
  exists pathname,
    parsed_pathname url = Ok pathname
    /\ checked_hashPart (fileData result) = Some (slugify (without_extension pathname))
    /\ rawUrl (fileData result) = url
    /\ fileName (fileData result)
       = JsString.replaceAll "/" "-"
           (JsString.trim (JsString.toLowerCase pathname) "/").
Proof.
  unfold check_url, getFileDataFromRawUrl, getHashPart.
  destruct (parsed_pathname url) as [pathname|e]; simpl; [|discriminate].
  destruct (isExtensionAllowed _ _) as [b|e]; simpl; [|discriminate].
  intros E. inversion E. exists pathname. repeat split.
Qed.

Lemma importByUrl_invalid (d : Descriptor) (allowedFileTypes : list string)
    (user : User) (w : World) :
  (forall result, check_url (d_url d) allowedFileTypes = Ok result ->
                  isValid result = false) ->
  exists t, importByUrl d allowedFileTypes user w = (Ret JNull, w, t)
            /\ (forall e, In e t -> exists err, e = EvLogError err).
Proof.
  intros Hinv. unfold importByUrl, bind. rewrite isValidFileUrl_run.
  destruct (check_url (d_url d) allowedFileTypes) as [result|err] eqn:E.
  - rewrite (Hinv result eq_refl). simpl. exists []. split; [reflexivity|].
    intros e [].
  - simpl. exists [EvLogError err]. split; [reflexivity|].
    intros e [<-|[]]. now exists err.
Qed.

Lemma not_accepted_invalid (url : JsStr) (allowedFileTypes : list string)
    (pathname : string) :
  parsed_pathname url = Ok pathname ->
  isExtensionAllowed (derived_extension pathname) allowedFileTypes <> Ok true ->
  forall result, check_url url allowedFileTypes = Ok result ->
                 isValid result = false.
Proof.
  intros Hp Hno result E.
  pose proof (check_url_extension _ _ _ _ Hp E) as Hx.
  destruct (isValid result); [contradiction|reflexivity].
Qed.

Lemma quiet_importByUrl_invalid (d : Descriptor) (allowedFileTypes : list string)
    (user : User) :
  (forall result, check_url (d_url d) allowedFileTypes = Ok result ->
                  isValid result = false) ->
  quiet (importByUrl d allowedFileTypes user).
Proof.
  intros Hinv w r w' t E.
  destruct (importByUrl_invalid d allowedFileTypes user w Hinv) as (t0 & E0 & Hlog).
  rewrite E0 in E. inversion E; subst. split; [reflexivity|].
  split; apply not_true_is_false; intros H; apply existsb_exists in H;
    destruct H as (e & He & Hb); destruct (Hlog e He) as (err & ->); discriminate.
Qed.

Lemma invalid_rejected_without_fetch (d : Descriptor)
    (allowedFileTypes : list string) (user : User) (w : World) :
  (forall result, check_url (d_url d) allowedFileTypes = Ok result ->
                  isValid result = false) ->
  rejected_without_fetch d allowedFileTypes user w.
Proof.
  intros Hinv. split; [now apply importByUrl_invalid|].
  intros r w' t E.
  assert (Q : quiet (findOrImportFile (RefObject d) user allowedFileTypes)).
  { simpl. apply quiet_bind.
    { split_if; [apply quiet_importById|apply quiet_ret]. }
    intros f1. apply quiet_bind.
    { split_if; [now apply quiet_importByUrl_invalid|apply quiet_ret]. }
    intros f2. apply quiet_bind; [|intros; apply quiet_ret].
    split_if; [apply quiet_importByName|apply quiet_ret]. }
  destruct (Q _ _ _ _ E) as (-> & Hr & Hu). repeat split; try assumption.
  intros Hid Hname. revert E. simpl. unfold bind at 1. rewrite Hid. simpl.
  unfold bind at 1.
  destruct (str_truthy (d_url d)).
  - destruct (importByUrl_invalid d allowedFileTypes user w Hinv) as (t0 & -> & _).
    unfold bind. rewrite Hname. simpl. intros E. now inversion E.
  - unfold bind. rewrite Hname. simpl. intros E. now inversion E.
Qed.

(** C2, as amended.  For a reference whose URL has a derived extension (the
    lower-cased last dot-segment of the pathname) that the allowed file types
    do not accept, the resolution by URL returns [null] with no lookup, no GET
    and no upload, and the resolution of the descriptor makes no GET and no
    upload and returns [null] when the descriptor has no id and no name; in
    particular for a pathname ending in [.exe] with images as the only allowed
    type. *)
Theorem disallowed_extension_is_never_fetched
    (d : Descriptor) (allowedFileTypes : list string) (user : User) (w : World)
    (pathname : string)
    (Hpath : parsed_pathname (d_url d) = Ok pathname) :
  (isExtensionAllowed (derived_extension pathname) allowedFileTypes <> Ok true ->
   rejected_without_fetch d allowedFileTypes user w)
  /\ (forall p, pathname = String.append p ".exe" ->
                rejected_without_fetch d ["images"] user w).
Proof.
  split.
  - intros Hno. apply invalid_rejected_without_fetch.
    now apply (not_accepted_invalid _ _ pathname).
  - intros p ->. apply invalid_rejected_without_fetch.
    apply (not_accepted_invalid _ _ _ Hpath).
    rewrite exe_is_no_image. discriminate.
Qed.

(** C10. A reference given as a bare string resolves to [null] whatever the
    string is: the [url] destructured from a string is [undefined], the
    built-ins turn it into the text "undefined", which is not a URL, so
    validation ends in its [catch] branch and nothing is looked up, fetched or
    uploaded.  The two hypotheses are what the built-ins do on that text. *)
Theorem bare_string_resolves_to_null
    (Hdecode : decodeURIComponent "undefined" = Some "undefined")
    (Hurl : URL_pathname "undefined" = None) :
  forall (s : string) (user : User) (allowedFileTypes : list string) (w : World),
    findOrImportFile (RefString s) user allowedFileTypes w
    = (Ret JNull, w, [EvLogError (TypeError "Invalid URL")]).
Proof.
  intros s user allowedFileTypes w. simpl.
  unfold importByUrl, bind. rewrite isValidFileUrl_run.
  unfold check_url, getFileDataFromRawUrl, parsed_pathname. simpl.
  rewrite Hdecode, Hurl. reflexivity.
Qed.

End UrlFacts.

(* ================================================================== *)
(** ** Resolution by id and by name, and the order of resolution *)

Section OrderFacts.
Context {B : Builtins} {C : Collaborators}.

Lemma importById_found (i : Z) (allowedFileTypes : list string) (w : World)
    (f : StoredFile) (allowed : bool) :
  i <> 0%Z ->
  find (fun g => Z.eqb (id g) i) (store w) = Some f ->
  isExtensionAllowed (JsString.substring_from 1 (ext f)) allowedFileTypes
  = Ok allowed ->
  importById i allowedFileTypes w
  = (Ret (if allowed then JFile f else JNull), w, [EvFindOne i]).
Proof.
  intros Hi Hf Ha. unfold importById, bind, findFile. simpl.
  apply Z.eqb_neq in Hi. rewrite Hi. simpl. unfold findOne. rewrite Hf. simpl.
  unfold bind. rewrite Ha. destruct allowed; reflexivity.
Qed.

Lemma importByName_found (n : string) (allowedFileTypes : list string) (w : World)
    (f : StoredFile) (allowed : bool) :
  n <> EmptyString ->
  find (matches (NameEquals n)) (store w) = Some f ->
  isExtensionAllowed (JsString.substring_from 1 (ext f)) allowedFileTypes
  = Ok allowed ->
  importByName (Some n) allowedFileTypes w
  = (Ret (if allowed then JFile f else JNull), w, [EvFindMany (NameEquals n)]).
Proof.
  intros Hn Hf Ha. unfold importByName, bind.
  rewrite (findFile_by_name n w Hn). unfold found. rewrite Hf. simpl.
  unfold bind. rewrite Ha. destruct allowed; reflexivity.
Qed.

(** C6. A reference resolved by id or by exact name whose stored file is
    found but has an extension the allowed file types do not accept resolves
    to [null]: nothing is thrown, nothing but the lookup happens. *)
Theorem found_but_disallowed_is_null
    (allowedFileTypes : list string) (user : User) (w : World) (f : StoredFile)
    (Hext : isExtensionAllowed (JsString.substring_from 1 (ext f)) allowedFileTypes
            = Ok false) :
  (forall i, i <> 0%Z ->
     find (fun g => Z.eqb (id g) i) (store w) = Some f ->
     importById i allowedFileTypes w = (Ret JNull, w, [EvFindOne i])
     /\ findOrImportFile (RefNumber i) user allowedFileTypes w
        = (Ret JNull, w, [EvFindOne i])
     /\ findOrImportFile (RefObject (only_id i)) user allowedFileTypes w
        = (Ret JNull, w, [EvFindOne i]))
  /\ (forall n, n <> EmptyString ->
        find (matches (NameEquals n)) (store w) = Some f ->
        importByName (Some n) allowedFileTypes w
        = (Ret JNull, w, [EvFindMany (NameEquals n)])
        /\ findOrImportFile (RefObject (only_name n)) user allowedFileTypes w
           = (Ret JNull, w, [EvFindMany (NameEquals n)])).
Proof.
  split.
  - intros i Hi Hf.
    pose proof (importById_found i allowedFileTypes w f false Hi Hf Hext) as E.
    repeat split; try exact E.
    simpl. unfold bind at 1. apply Z.eqb_neq in Hi. rewrite Hi. simpl.
    rewrite E. reflexivity.
  - intros n Hn Hf.
    pose proof (importByName_found n allowedFileTypes w f false Hn Hf Hext) as E.
    split; [exact E|].
    cbn [findOrImportFile isObjectSafe only_name d_id d_url d_name id_truthy
         file_truthy negb andb].
    rewrite bind_ret_l. cbn [file_truthy negb andb str_truthy].
    rewrite bind_ret_l. cbn [file_truthy negb andb str_truthy].
    apply String.eqb_neq in Hn. unfold JsString.truthy. rewrite Hn. cbn [negb].
    rewrite bind_ret_r. exact E.
Qed.

(** C7. For a descriptor object the resolution goes by id, then by url, then
    by name, each tried only when the descriptor has the property and no
    file was obtained before, and the first stored file obtained is the
    result: the function is the first match over the three ways in that
    order. *)
Theorem resolution_is_first_match_id_url_name :
  forall (d : Descriptor) (user : User) (allowedFileTypes : list string) (w : World),
    findOrImportFile (RefObject d) user allowedFileTypes w
    = first_match JNull (resolution_order d user allowedFileTypes) w.
Proof.
  intros d user allowedFileTypes w.
  set (byName := importByName (d_name d) allowedFileTypes).
  set (byUrl := importByUrl d allowedFileTypes user).
  set (byId := importById (id_value (d_id d)) allowedFileTypes).
  assert (H3 : forall f w1,
    bind (if (negb (file_truthy f) && str_truthy (d_name d))%bool
          then byName else ret f) (fun file => ret file) w1
    = first_match f [(str_truthy (d_name d), byName)] w1).
  { intros f w1. rewrite bind_ret_r. simpl.
    destruct (file_truthy f), (str_truthy (d_name d)); simpl;
      rewrite ?bind_ret_r; reflexivity. }
  assert (H2 : forall f w1,
    bind (if (negb (file_truthy f) && str_truthy (d_url d))%bool
          then byUrl else ret f)
         (fun file =>
            bind (if (negb (file_truthy file) && str_truthy (d_name d))%bool
                  then byName else ret file) (fun file => ret file)) w1
    = first_match f [(str_truthy (d_url d), byUrl);
                     (str_truthy (d_name d), byName)] w1).
  { intros f w1. rewrite first_match_cons.
    destruct (file_truthy f) eqn:Ef; cbn [negb andb].
    - rewrite bind_ret_l, H3, first_match_cons, Ef. reflexivity.
    - destruct (str_truthy (d_url d)).
      + apply bind_ext. intros a w2. apply H3.
      + rewrite bind_ret_l. apply H3. }
  unfold resolution_order. fold byId byUrl byName. rewrite first_match_cons.
  cbn [findOrImportFile isObjectSafe]. fold byId byUrl byName.
  cbn [file_truthy negb andb].
  destruct (id_truthy (d_id d)).
  - apply bind_ext. intros a w1. apply H2.
  - rewrite bind_ret_l. apply H2.
Qed.

End OrderFacts.

Lemma first_match_found (f : StoredFile) (ways : list (bool * M MaybeFile))
    (w : World) :
  first_match (JFile f) ways w = (Ret (JFile f), w, []).
Proof. destruct ways as [|[applies way] rest]; reflexivity. Qed.

(* ================================================================== *)
(** ** Fetching, uploading and the temporary file *)

Section FetchFacts.
Context {B : Builtins} {C : Collaborators}.

Lemma fetchFile_transport_error (u : string) (w : World) (err : Err) :
  request w u = ReplyError err ->
  fetchFile (Some u) w = (Throw err, w, [EvRequest u]).
Proof. intros E. unfold fetchFile. now rewrite E. Qed.

(** A completed GET with a status outside 2xx settles nothing. *)
Lemma fetchFile_bad_status (u : string) (w : World) (statusCode : Z)
    (content_type content_length : JsStr) (body : string) :
  request w u = ReplyResponse statusCode content_type content_length body ->
  bad_status statusCode = true ->
  fetchFile (Some u) w
  = (Pending, w, [EvRequest u; EvUnhandledRejection (status_error u statusCode)]).
Proof.
  intros E Hs. unfold fetchFile. rewrite E. unfold fetch_callback.
  unfold bad_status in Hs. rewrite Hs. reflexivity.
Qed.

Lemma importFile_bad_status (args : ImportArgs) (user : User) (u : string)
    (w : World) (statusCode : Z) (content_type content_length : JsStr)
    (body : string) :
  arg_url args = Some u ->
  request w u = ReplyResponse statusCode content_type content_length body ->
  bad_status statusCode = true ->
  importFile args user w
  = (Pending, w, [EvRequest u; EvUnhandledRejection (status_error u statusCode)]).
Proof.
  intros Hu E Hs. unfold importFile. rewrite Hu.
  now rewrite (fetchFile_bad_status _ _ _ _ _ _ E Hs).
Qed.

Lemma importFile_transport_error (args : ImportArgs) (user : User) (u : string)
    (w : World) (err : Err) :
  arg_url args = Some u ->
  request w u = ReplyError err ->
  importFile args user w = (Throw err, w, [EvRequest u; EvLogError err]).
Proof.
  intros Hu E. unfold importFile. rewrite Hu.
  now rewrite (fetchFile_transport_error _ _ _ E).
Qed.

Lemma importFile_requests (args : ImportArgs) (user : User) (u : string)
    (w : World) :
  arg_url args = Some u ->
  exists t, snd (importFile args user w) = EvRequest u :: t.
Proof.
  intros Hu. unfold importFile, fetchFile. rewrite Hu.
  destruct (request w u) as [err|statusCode ct cl body].
  { simpl. eexists. reflexivity. }
  destruct (fetch_callback _ _ _ _ _ w) as [[[file|e|] w1] t1].
  - destruct (try_catch_finally _ _ _ w1) as [[r2 w2] t2]. simpl.
    eexists. reflexivity.
  - simpl. eexists. reflexivity.
  - simpl. eexists. reflexivity.
Qed.

(** What a fetch leaves: either a file whose path was written and is on
    disk, or no written file at all. *)
Lemma fetchFile_cases (url : JsStr) (w w1 : World) (r : Outcome FetchedFile)
    (t1 : list Event) :
  fetchFile url w = (r, w1, t1) ->
  (exists file u dir,
      r = Ret file /\ url = Some u
      /\ t1 = [EvRequest u; EvMkdtemp dir; EvWriteFile (fetched_path file)]
      /\ disk w1 = fetched_path file :: disk w
      /\ JsString.truthy (fetched_path file) = true)
  \/ ((forall file, r <> Ret file) /\ disk w1 = disk w
      /\ forall p, ~ In (EvWriteFile p) t1).
Proof.
  unfold fetchFile. destruct url as [u|].
  2:{ intros E. inversion E; subst. right. repeat split; try discriminate.
      intros p []. }
  destruct (request w u) as [err|statusCode ct cl body].
  { intros E. inversion E; subst. right. repeat split; try discriminate.
    intros p [H|[]]; discriminate. }
  unfold fetch_callback. destruct (_ || _)%bool.
  { intros E. inversion E; subst. right. repeat split; try discriminate.
    intros p [H|[H|[]]]; discriminate. }
  destruct ct as [ct|].
  2:{ intros E. inversion E; subst. right. repeat split; try discriminate.
      intros p [H|[H|[]]]; discriminate. }
  unfold bind at 1. destruct (getFileDataFromRawUrl (Some u)) as [data|e]; simpl.
  2:{ intros E. inversion E; subst. right. repeat split; try discriminate.
      intros p [H|[H|[]]]; discriminate. }
  unfold bind, writeFile, path_join.
  destruct (JsString.truthy (name data)) eqn:Hn.
  2:{ simpl. intros E. inversion E; subst. right. repeat split; try discriminate.
      intros p [H|[H|[H|[H|[]]]]]; discriminate. }
  destruct (writeFileSync_error _ _) as [err|].
  { simpl. intros E. inversion E; subst. right. repeat split; try discriminate.
    intros p [H|[H|[H|[H|[]]]]]; discriminate. }
  simpl. intros E. inversion E; subst. left.
  eexists _, u, _. repeat split.
Qed.

Lemma deleted_is_gone (p : string) (l : list string) :
  ~ In p (filter (fun q => negb (String.eqb p q)) l).
Proof.
  intros H. apply filter_In in H. destruct H as [_ H].
  now rewrite String.eqb_refl in H.
Qed.

(** The rest of [importFile] once the file is fetched: whatever the upload
    does, the [finally] block removes the file. *)
Lemma importFile_finally (args : ImportArgs) (user : User) (file : FetchedFile)
    (w1 w2 : World) (r : Outcome MaybeFile) (t2 : list Event) :
  JsString.truthy (fetched_path file) = true ->
  In (fetched_path file) (disk w1) ->
  try_catch_finally
    (upload_fetched args user file)
    (fun err => _ <- log_error err ;; throw err)
    (deleteFileIfExists (Some (fetched_path file))) w1 = (r, w2, t2) ->
  In (EvRmFile (fetched_path file)) t2
  /\ ~ In (fetched_path file) (disk w2)
  /\ (forall p, ~ In (EvWriteFile p) t2)
  /\ r <> Pending.
Proof.
  intros Ht Hin.
  assert (Hex : forall s c, existsSync (fetched_path file)
                  {| store := s; disk := disk w1; mkdtemp_count := c |} = true).
  { intros s c. unfold existsSync. apply existsb_exists.
    exists (fetched_path file). split; [exact Hin|apply String.eqb_refl]. }
  unfold try_catch_finally, upload_fetched.
  destruct (upload w1 _ user) as [err|store' uploaded]; simpl;
    unfold deleteFileIfExists; rewrite Ht.
  - replace w1 with {| store := store w1; disk := disk w1;
                       mkdtemp_count := mkdtemp_count w1 |} at 1 by now destruct w1.
    rewrite Hex. simpl. intros E. inversion E; subst. simpl.
    repeat split; auto using deleted_is_gone; try discriminate.
    intros p [H|[H|[H|[]]]]; discriminate.
  - rewrite Hex. simpl. intros E. inversion E; subst. simpl.
    repeat split; auto using deleted_is_gone; try discriminate.
    intros p [H|[H|[]]]; discriminate.
Qed.

(** C5. On every path through the media import the temporary file that holds
    the fetched bytes is removed: each path written during [importFile] is
    removed during it and is not on disk when it ends, whether the upload
    succeeded or threw. *)
Theorem temporary_file_never_remains :
  forall (args : ImportArgs) (user : User) (w w' : World)
         (r : Outcome MaybeFile) (t : list Event),
    importFile args user w = (r, w', t) ->
    forall p, In (EvWriteFile p) t -> In (EvRmFile p) t /\ ~ In p (disk w').
Proof.
  intros args user w w' r t. unfold importFile.
  destruct (fetchFile (arg_url args) w) as [[r1 w1] t1] eqn:Ef.
  destruct (fetchFile_cases _ _ _ _ _ Ef)
    as [(file & u & dir & -> & Hu & -> & Hd & Ht)|(Hno & Hd & Hw)].
  - destruct (try_catch_finally _ _ _ w1) as [[r2 w2] t2] eqn:E2.
    assert (Hin : In (fetched_path file) (disk w1)) by (rewrite Hd; now left).
    destruct (importFile_finally _ _ _ _ _ _ _ Ht Hin E2) as (Hrm & Hgone & Hnw & _).
    intros E. inversion E; subst. intros p Hp.
    destruct Hp as [H|[H|[H|Hp]]]; try discriminate; [|now apply Hnw in Hp].
    inversion H; subst.
    split; [|exact Hgone]. do 3 right. exact Hrm.
  - destruct r1 as [file|e|].
    + now destruct (Hno file).
    + simpl. intros E. inversion E; subst. intros p Hp.
      apply in_app_or in Hp. destruct Hp as [Hp|Hp]; [now apply Hw in Hp|].
      destruct Hp as [H|[]]; discriminate.
    + intros E. inversion E; subst. intros p Hp. now apply Hw in Hp.
Qed.

End FetchFacts.

(* ================================================================== *)
(** ** The lookup before the import *)

Section LookupFacts.
Context {B : Builtins} {C : Collaborators}.

(** [importByUrl] on a valid URL: one search by hash prefix, and the import
    only when the search finds nothing. *)
Lemma importByUrl_valid_run (d : Descriptor) (allowedFileTypes : list string)
    (user : User) (w : World) (result : CheckResult) :
  check_url (d_url d) allowedFileTypes = Ok result ->
  isValid result = true ->
  fileName (fileData result) <> EmptyString ->
  let q := HashStartsWith (String.append (fileName (fileData result)) "_") in
  importByUrl d allowedFileTypes user w
  = match found q w with
    | JFile f => (Ret (JFile f), w, [EvFindMany q])
    | _ => let '(r, w', t) := importFile (import_args d result) user w in
           (r, w', EvFindMany q :: t)
    end.
Proof.
  intros Hc Hv Hn q. unfold importByUrl. unfold bind at 1.
  rewrite isValidFileUrl_run, Hc, Hv. cbn [negb]. unfold bind at 1.
  rewrite (findFile_by_hash _ w Hn). fold q.
  destruct (found q w); cbn [file_truthy negb]; unfold import_args;
    try destruct (importFile _ user w) as [[r w'] t]; reflexivity.
Qed.

End LookupFacts.

(** C4, as amended.  For every URL that passes validation the check computes
    a content slug that is a function of the URL alone: its pathname without
    the extension (the text up to the last dot), slugified with [_] as
    separator and the case kept.  For [https://x/y/pic.png] the slug is
    [y_pic]. *)
Theorem content_slug_of_a_valid_url :
  (forall (B : Builtins) (url : JsStr) (allowedFileTypes : list string)
          (result : CheckResult),
      check_url url allowedFileTypes = Ok result ->
      isValid result = true ->
      exists pathname,
        parsed_pathname url = Ok pathname
        /\ checked_hashPart (fileData result)
           = Some (slugify (without_extension pathname))
        /\ getHashPart url = Ok (slugify (without_extension pathname))
        /\ (forall p q, pathname = String.append p (String "." q) ->
                        p <> EmptyString -> JsString.contains "." q = false ->
                        checked_hashPart (fileData result) = Some (slugify p)))
  /\ Run.hash_part (Some "https://x/y/pic.png") = Ok "y_pic".
Proof.
  split.
  - intros B url allowedFileTypes result Hc _.
    destruct (check_url_hashPart _ _ _ Hc) as (pathname & Hp & Hh & _).
    exists pathname. repeat split; try assumption.
    + unfold getHashPart. now rewrite Hp.
    + intros p q -> Hne Hq. rewrite Hh. now rewrite without_extension_strips.
  - reflexivity.
Qed.

(* ================================================================== *)
(** ** The export gate *)

Section ExportFacts.
Import ExportController.
Context {H : Host}.

(** C9. An export request whose principal may not read the target collection
    is answered with the forbidden response and never reaches the export
    service; the service is called only once the permission check has been
    made and has passed. *)
Theorem export_refused_without_read_permission :
  forall ctx : Ctx,
    let model := slug (request_body ctx) in
    (can_read (state_userAbility ctx) model = false ->
     exportData ctx = (Forbidden, [CallCanRead model; CallForbidden])
     /\ existsb is_export_call (snd (exportData ctx)) = false)
    /\ (forall p, In (CallExportData p) (snd (exportData ctx)) ->
          can_read (state_userAbility ctx) model = true
          /\ snd (exportData ctx) = [CallCanRead model; CallExportData p]).
Proof.
  intros ctx model. unfold exportData, hasPermissions. fold model.
  destruct (can_read (state_userAbility ctx) model) eqn:E; simpl.
  - split; [discriminate|].
    destruct (export_service _); simpl; intros p [Hp|[Hp|[]]]; try discriminate;
      inversion Hp; subst; auto.
  - split; [auto|]. intros p [Hp|[Hp|[]]]; discriminate.
Qed.

End ExportFacts.

(* ================================================================== *)
(** ** Evaluations *)

(** C3, at the failing input.  The GET of [https://x/gone.png] completes with
    status 404.  The error is thrown inside the asynchronous callback: it is
    an unhandled rejection of the callback, and the promise of [fetchFile],
    hence of [importByUrl], is left pending instead of being rejected.  A
    transport error does reject it. *)
Theorem not_found_leaves_the_fetch_pending :
  Demo.demo_request Demo.empty_world "https://x/gone.png"
  = ReplyResponse 404 (Some "text/html") None "Not Found"
  /\ Run.fetch (Some "https://x/gone.png") Demo.empty_world
     = (Pending, Demo.empty_world,
        [EvRequest "https://x/gone.png";
         EvUnhandledRejection
           (Error "Tried to fetch file from url https://x/gone.png but failed with status code 404")])
  /\ fst (fst (Run.resolve_by_url (Demo.by_url "https://x/gone.png") ["images"]
                 Demo.someone Demo.empty_world)) = Pending
  /\ fst (fst (Run.resolve_by_url (Demo.by_url "https://down/pic.png") ["images"]
                 Demo.someone Demo.empty_world))
     = Throw (Error "connect ECONNREFUSED").
Proof. vm_compute. repeat split. Qed.

(** C4 as stated fails at [https://x/y/pic.png]: the prefix [importByUrl]
    searches for is [y-pic.png_], the file name with its extension, not
    [y-pic_]; and the content slug of the URL is [y_pic], not [y-pic]. *)
Lemma lookup_prefix_is_not_y_pic :
  hd_error (snd Run.first_run) = Some (EvFindMany (HashStartsWith "y-pic.png_"))
  /\ ~ In (EvFindMany (HashStartsWith "y-pic_")) (snd Run.first_run)
  /\ Run.hash_part (Some Run.pic_url) = Ok "y_pic"
  /\ Run.hash_part (Some Run.pic_url) <> Ok "y-pic".
Proof.
  vm_compute. repeat split; try discriminate.
  intros H. repeat (destruct H as [H|H]; [discriminate|]). exact H.
Qed.

Lemma content_slug_of_a_valid_url_witness :
  @check_url plain_builtins (Some Run.pic_url) ["images"] = Ok Run.pic_check
  /\ isValid Run.pic_check = true
  /\ exists pathname,
       @parsed_pathname plain_builtins (Some Run.pic_url) = Ok pathname
       /\ checked_hashPart (fileData Run.pic_check)
          = Some (PlainUrl.slug (without_extension pathname))
       /\ Run.hash_part (Some Run.pic_url)
          = Ok (PlainUrl.slug (without_extension pathname))
       /\ (forall p q, pathname = String.append p (String "." q) ->
                       p <> EmptyString -> JsString.contains "." q = false ->
                       checked_hashPart (fileData Run.pic_check)
                       = Some (PlainUrl.slug p)).
Proof.
  split; [reflexivity|]. split; [reflexivity|].
  exact (proj1 content_slug_of_a_valid_url plain_builtins
           (Some Run.pic_url) ["images"] Run.pic_check eq_refl eq_refl).
Defined.

Lemma disallowed_extension_is_never_fetched_witness :
  @parsed_pathname plain_builtins (d_url Run.installer) = Ok "/setup.exe"
  /\ isExtensionAllowed (derived_extension "/setup.exe") ["images"] <> Ok true
  /\ @rejected_without_fetch plain_builtins Demo.demo_collaborators
       Run.installer ["images"] Demo.someone Demo.empty_world.
Proof.
  split; [reflexivity|]. split; [discriminate|].
  apply (proj1 (@disallowed_extension_is_never_fetched
                  plain_builtins Demo.demo_collaborators
                  Run.installer ["images"]
                  Demo.someone Demo.empty_world "/setup.exe" eq_refl)).
  discriminate.
Defined.

Lemma bare_string_resolves_to_null_witness :
  PlainUrl.decode "undefined" = Some "undefined"
  /\ PlainUrl.pathname "undefined" = None
  /\ Run.resolve (RefString Run.pic_url) Demo.someone ["images"] Demo.empty_world
     = (Ret JNull, Demo.empty_world, [EvLogError (TypeError "Invalid URL")]).
Proof.
  split; [reflexivity|]. split; [reflexivity|].
  exact (@bare_string_resolves_to_null plain_builtins Demo.demo_collaborators
           eq_refl eq_refl Run.pic_url Demo.someone ["images"] Demo.empty_world).
Defined.

Lemma found_but_disallowed_is_null_witness :
  isExtensionAllowed (JsString.substring_from 1 (ext Run.pdf)) ["images"] = Ok false
  /\ find (fun g => Z.eqb (id g) 7) (store Run.archive) = Some Run.pdf
  /\ importById 7 ["images"] Run.archive = (Ret JNull, Run.archive, [EvFindOne 7]).
Proof.
  split; [reflexivity|]. split; [reflexivity|].
  apply (proj1 (@found_but_disallowed_is_null
                  plain_builtins Demo.demo_collaborators ["images"] Demo.someone
                  Run.archive Run.pdf eq_refl) 7%Z); [discriminate|reflexivity].
Defined.

Lemma export_refused_without_read_permission_witness :
  ExportController.can_read (ExportController.state_userAbility Run.denied)
    "api::article.article" = false
  /\ ExportController.exportData Run.denied
     = (ExportController.Forbidden,
        [ExportController.CallCanRead "api::article.article";
         ExportController.CallForbidden]).
Proof.
  split; [reflexivity|].
  exact (proj1 (proj1 (export_refused_without_read_permission Run.denied) eq_refl)).
Defined.

Lemma temporary_file_never_remains_witness :
  In (EvWriteFile Run.pic_tmp) (snd Run.import_pic)
  /\ In (EvRmFile Run.pic_tmp) (snd Run.import_pic)
  /\ ~ In Run.pic_tmp (disk (snd (fst Run.import_pic))).
Proof.
  assert (Hw : In (EvWriteFile Run.pic_tmp) (snd Run.import_pic)).
  { vm_compute. auto. }
  split; [exact Hw|].
  apply (@temporary_file_never_remains plain_builtins Demo.demo_collaborators
           Run.pic_args Demo.someone Demo.empty_world
           (snd (fst Run.import_pic)) (fst (fst Run.import_pic))
           (snd Run.import_pic)); [reflexivity|exact Hw].
Defined.

(* ================================================================== *)
(** * Further properties of the code *)

(* ================================================================== *)
(** ** Unhandled file types *)

Lemma checkers_stop_at_unhandled (t : string) (known : list FileType)
    (rest : list string) :
  property_of_fileTypeCheckers t = None ->
  exc_map getFileTypeChecker (map type_name known ++ t :: rest)
  = Raise (Error ("Strapi file type " ++ t ++ " not handled.")).
Proof.
  intros Ht. induction known as [|k known IH]; simpl.
  - unfold getFileTypeChecker. rewrite Ht. reflexivity.
  - rewrite getFileTypeChecker_known. simpl. rewrite IH. reflexivity.
Qed.

(** X1. A type that names no property of the checkers object, own or
    inherited, makes the allow check throw wherever it stands among the
    allowed file types, whatever the extension and whatever the entries
    before it accept: the checkers are all fetched before any is asked. *)
Theorem unhandled_type_always_throws
    (e t : string) (known : list FileType) (rest : list string)
    (Hunhandled : property_of_fileTypeCheckers t = None) :
  isExtensionAllowed e (map type_name known ++ t :: rest)
  = Raise (Error ("Strapi file type " ++ t ++ " not handled.")).
Proof.
  unfold isExtensionAllowed. now rewrite checkers_stop_at_unhandled.
Qed.

Lemma unhandled_type_always_throws_witness :
  property_of_fileTypeCheckers "documents" = None
  /\ isExtensionAllowed "png" ["files"; "images"; "documents"; "videos"]
     = Raise (Error "Strapi file type documents not handled.").
Proof.
  split; [reflexivity|].
  exact (unhandled_type_always_throws "png" "documents" [files; images] ["videos"]
           eq_refl).
Defined.

Section LookupResults.
Context {B : Builtins} {C : Collaborators}.

Lemma check_url_ok (url : JsStr) (allowedFileTypes : list string)
    (pathname : string) (b : bool) :
  parsed_pathname url = Ok pathname ->
  isExtensionAllowed (derived_extension pathname) allowedFileTypes = Ok b ->
  exists result, check_url url allowedFileTypes = Ok result.
Proof.
  intros Hp Hb. unfold check_url, getFileDataFromRawUrl, getHashPart.
  rewrite Hp. simpl. rewrite Hb. simpl. eexists. reflexivity.
Qed.

(** X2. Validation of a URL never throws and tells valid from invalid
    exactly: the result is valid when, and only when, the URL decodes and
    parses and the allow check accepts its derived extension.  A valid result
    carries the URL as it was given and logs nothing; an invalid one logs at
    most the error that was caught. *)
Theorem url_is_valid_iff_parsed_and_accepted :
  forall (url : JsStr) (allowedFileTypes : list string) (w : World),
    exists result t,
      isValidFileUrl url allowedFileTypes w = (Ret result, w, t)
      /\ (isValid result = true <->
          exists pathname,
            parsed_pathname url = Ok pathname
            /\ isExtensionAllowed (derived_extension pathname) allowedFileTypes
               = Ok true)
      /\ (isValid result = true -> t = [] /\ rawUrl (fileData result) = url)
      /\ (forall e, In e t -> exists err, e = EvLogError err).
Proof.
  intros url allowedFileTypes w. rewrite isValidFileUrl_run.
  destruct (check_url url allowedFileTypes) as [result|err] eqn:E.
  - exists result, []. split; [reflexivity|].
    destruct (check_url_hashPart _ _ _ E) as (pathname & Hp & _ & Hr & _).
    pose proof (check_url_extension _ _ _ _ Hp E) as Hx.
    split; [|split].
    + split.
      * intros Hv. exists pathname. split; [exact Hp|]. now rewrite Hx, Hv.
      * intros (p' & Hp' & Ha). rewrite Hp in Hp'. inversion Hp'; subst p'.
        rewrite Hx in Ha. now inversion Ha.
    + intros _. split; [reflexivity|exact Hr].
    + intros e [].
  - exists invalid_result, [EvLogError err]. split; [reflexivity|].
    split; [|split].
    + split; [discriminate|].
      intros (pathname & Hp & Ha).
      destruct (check_url_ok _ _ _ _ Hp Ha) as (result & Hr). rewrite E in Hr.
      discriminate.
    + discriminate.
    + intros e [<-|[]]. now exists err.
Qed.

Lemma null_unless_allowed_file (file : MaybeFile) (allowedFileTypes : list string)
    (w w' : World) (f : StoredFile) (t : list Event) :
  null_unless_allowed file allowedFileTypes w = (Ret (JFile f), w', t) ->
  file = JFile f /\ w' = w /\ t = []
  /\ isExtensionAllowed (JsString.substring_from 1 (ext f)) allowedFileTypes = Ok true.
Proof.
  destruct file as [| |g]; [cbn; discriminate|cbn; discriminate|].
  simpl. unfold bind.
  destruct (isExtensionAllowed _ _) as [[|]|e] eqn:Ea; simpl; intros E;
    inversion E; subst. auto.
Qed.

(** X3. A file resolved by id or by name is an entry of the file table, has
    the id or the name that was asked for, and passed the allow check; the
    lookup leaves the world as it was. *)
Theorem lookup_yields_stored_and_allowed_file
    (allowedFileTypes : list string) (w w' : World) (f : StoredFile)
    (t : list Event) :
  (forall i, importById i allowedFileTypes w = (Ret (JFile f), w', t) ->
     In f (store w) /\ id f = i /\ w' = w
     /\ isExtensionAllowed (JsString.substring_from 1 (ext f)) allowedFileTypes
        = Ok true)
  /\ (forall n, importByName n allowedFileTypes w = (Ret (JFile f), w', t) ->
        In f (store w) /\ n = Some (file_name f) /\ w' = w
        /\ isExtensionAllowed (JsString.substring_from 1 (ext f)) allowedFileTypes
           = Ok true).
Proof.
  split.
  - intros i. unfold importById, bind, findFile. cbn [filter_id filter_hash
      filter_name id_truthy id_value str_truthy].
    destruct (Z.eqb i 0) eqn:Ei; cbn [negb].
    + destruct (null_unless_allowed JNull allowedFileTypes w) as [[r1 w1] t1] eqn:E1.
      cbn in E1. inversion E1; subst. cbn. discriminate.
    + unfold findOne.
      destruct (find _ (store w)) as [g|] eqn:Ef.
      * destruct (null_unless_allowed (JFile g) allowedFileTypes w)
          as [[r1 w1] t1] eqn:E1.
        intros E. inversion E; subst.
        destruct (null_unless_allowed_file _ _ _ _ _ _ E1) as (Hg & -> & _ & Ha).
        inversion Hg; subst g. apply find_some in Ef. destruct Ef as [Hin Hid].
        apply Z.eqb_eq in Hid. auto.
      * cbn. discriminate.
  - intros n. unfold importByName, bind.
    destruct n as [n|].
    + destruct (String.eqb n EmptyString) eqn:En.
      * apply String.eqb_eq in En. subst n. cbn. discriminate.
      * apply String.eqb_neq in En. rewrite (findFile_by_name n w En).
        unfold found. destruct (find _ (store w)) as [g|] eqn:Ef.
        -- destruct (null_unless_allowed (JFile g) allowedFileTypes w)
             as [[r1 w1] t1] eqn:E1.
           intros E. inversion E; subst.
           destruct (null_unless_allowed_file _ _ _ _ _ _ E1) as (Hg & -> & _ & Ha).
           inversion Hg; subst g. apply find_some in Ef. destruct Ef as [Hin Hn].
           simpl in Hn. apply String.eqb_eq in Hn. subst n. auto.
        -- cbn. discriminate.
    + cbn. discriminate.
Qed.

(** X4. An unhandled type among the allowed file types is noticed by a lookup
    only when a file is found: then the error escapes [importById]; when no
    file has the id, the result is [null] and the types are never examined. *)
Theorem unhandled_type_escapes_only_when_found
    (allowedFileTypes : list string) (w : World) (i : Z) (Hi : i <> 0%Z) :
  (forall f err,
      find (fun g => Z.eqb (id g) i) (store w) = Some f ->
      isExtensionAllowed (JsString.substring_from 1 (ext f)) allowedFileTypes
      = Raise err ->
      importById i allowedFileTypes w = (Throw err, w, [EvFindOne i]))
  /\ (find (fun g => Z.eqb (id g) i) (store w) = None ->
      importById i allowedFileTypes w = (Ret JNull, w, [EvFindOne i])).
Proof.
  apply Z.eqb_neq in Hi. split.
  - intros f err Hf Ha. unfold importById, bind, findFile. simpl. rewrite Hi. simpl.
    unfold findOne. rewrite Hf. simpl. unfold bind. rewrite Ha. reflexivity.
  - intros Hf. unfold importById, bind, findFile. simpl. rewrite Hi. simpl.
    unfold findOne. rewrite Hf. reflexivity.
Qed.

End LookupResults.

Lemma lookup_yields_stored_and_allowed_file_witness :
  importById 7 ["files"] Run.archive = (Ret (JFile Run.pdf), Run.archive, [EvFindOne 7])
  /\ In Run.pdf (store Run.archive) /\ id Run.pdf = 7%Z /\ Run.archive = Run.archive
  /\ isExtensionAllowed (JsString.substring_from 1 (ext Run.pdf)) ["files"] = Ok true.
Proof.
  split; [reflexivity|].
  exact (proj1 (lookup_yields_stored_and_allowed_file ["files"] Run.archive
                  Run.archive Run.pdf [EvFindOne 7]) 7%Z eq_refl).
Defined.

Lemma unhandled_type_escapes_only_when_found_witness :
  7%Z <> 0%Z
  /\ find (fun g => Z.eqb (id g) 7) (store Run.archive) = Some Run.pdf
  /\ importById 7 ["documents"] Run.archive
     = (Throw (Error "Strapi file type documents not handled."), Run.archive,
        [EvFindOne 7]).
Proof.
  split; [discriminate|]. split; [reflexivity|].
  refine (proj1 (unhandled_type_escapes_only_when_found ["documents"] Run.archive
                   7%Z _) Run.pdf _ eq_refl eq_refl).
  discriminate.
Defined.

(* ================================================================== *)
(** ** Counting GETs and uploads *)

Lemma count_app (kind : Event -> bool) (a b : list Event) :
  count kind (a ++ b) = (count kind a + count kind b)%nat.
Proof. unfold count. now rewrite filter_app, List.length_app. Qed.

Lemma count_none (kind : Event -> bool) (t : list Event) :
  existsb kind t = false -> count kind t = 0%nat.
Proof.
  unfold count. induction t as [|e t IH]; simpl; [reflexivity|].
  destruct (kind e); simpl; [discriminate|exact IH].
Qed.

Lemma quiet_within_budget {A} (m : M A) : quiet m -> within_budget 0 m.
Proof.
  intros Q w r w' t E. destruct (Q _ _ _ _ E) as (_ & Hr & Hu).
  rewrite (count_none _ _ Hr), (count_none _ _ Hu). lia.
Qed.

Lemma within_budget_mono {A} (a b : nat) (m : M A) :
  (a <= b)%nat -> within_budget a m -> within_budget b m.
Proof. intros Hab H w r w' t E. destruct (H _ _ _ _ E). lia. Qed.

Lemma within_budget_bind {A X} (a b : nat) (m : M A) (k : A -> M X) :
  within_budget a m -> (forall x, within_budget b (k x)) ->
  within_budget (a + b) (bind m k).
Proof.
  intros Hm Hk w r w' t. unfold bind.
  destruct (m w) as [[r1 w1] t1] eqn:E1. destruct (Hm _ _ _ _ E1) as [H1 H2].
  destruct r1 as [x|e|].
  - destruct (k x w1) as [[r2 w2] t2] eqn:E2. destruct (Hk x _ _ _ _ E2) as [H3 H4].
    intros E. inversion E; subst. rewrite !count_app. lia.
  - intros E. inversion E; subst. lia.
  - intros E. inversion E; subst. lia.
Qed.

Section Budget.
Context {B : Builtins} {C : Collaborators}.

(** A fetch makes one GET at most, uploads nothing and leaves the file table
    alone. *)
Lemma fetchFile_frugal (url : JsStr) (w w1 : World) (r : Outcome FetchedFile)
    (t1 : list Event) :
  fetchFile url w = (r, w1, t1) ->
  count is_upload t1 = 0%nat /\ (count is_request t1 <= 1)%nat
  /\ store w1 = store w.
Proof.
  unfold fetchFile. destruct url as [u|].
  2:{ intros E. inversion E; subst. cbn. auto. }
  destruct (request w u) as [err|statusCode ct cl body].
  { intros E. inversion E; subst. cbn. auto. }
  unfold fetch_callback. destruct (_ || _)%bool.
  { intros E. inversion E; subst. cbn. auto. }
  destruct ct as [ct|].
  2:{ intros E. inversion E; subst. cbn. auto. }
  unfold bind at 1. destruct (getFileDataFromRawUrl (Some u)) as [data|e]; simpl.
  2:{ intros E. inversion E; subst. cbn. auto. }
  unfold bind, writeFile.
  destruct (if JsString.truthy (name data) then _ else _) as [err|].
  { simpl. intros E. inversion E; subst. cbn. auto. }
  simpl. intros E. inversion E; subst. cbn. auto.
Qed.

(** The [try], [catch] and [finally] of [importFile] after the fetch: no GET,
    one upload at most, and the disk loses the fetched path only. *)
Lemma importFile_rest (args : ImportArgs) (user : User) (file : FetchedFile)
    (w1 w2 : World) (r : Outcome MaybeFile) (t2 : list Event) :
  try_catch_finally
    (upload_fetched args user file)
    (fun err => _ <- log_error err ;; throw err)
    (deleteFileIfExists (Some (fetched_path file))) w1 = (r, w2, t2) ->
  count is_request t2 = 0%nat /\ (count is_upload t2 <= 1)%nat
  /\ (forall q, In q (disk w2) -> In q (disk w1))
  /\ (forall q, In q (disk w1) -> q <> fetched_path file -> In q (disk w2)).
Proof.
  assert (Hkeep : forall l q, In q l -> q <> fetched_path file ->
            In q (filter (fun p => negb (String.eqb (fetched_path file) p)) l)).
  { intros l q Hq Hne. apply filter_In. split; [exact Hq|].
    destruct (String.eqb_spec (fetched_path file) q); [now subst|reflexivity]. }
  assert (Hsub : forall l q,
            In q (filter (fun p => negb (String.eqb (fetched_path file) p)) l) ->
            In q l).
  { intros l q Hq. now apply filter_In in Hq. }
  unfold try_catch_finally, upload_fetched.
  destruct (upload w1 _ user) as [err|store' uploaded]; simpl;
    unfold deleteFileIfExists;
    match goal with |- context [if ?c then _ else _] => destruct c end;
    intros E; inversion E; subst; cbn; repeat split; auto.
Qed.

Lemma importFile_frugal (args : ImportArgs) (user : User) :
  within_budget 1 (importFile args user).
Proof.
  intros w r w' t. unfold importFile.
  destruct (fetchFile (arg_url args) w) as [[r1 w1] t1] eqn:Ef.
  pose proof (fetchFile_frugal _ _ _ _ _ Ef) as (Hu & Hr & _).
  destruct (fetchFile_cases _ _ _ _ _ Ef)
    as [(file & u & dir & -> & _ & Ht1 & _)|(Hno & _)].
  - destruct (try_catch_finally _ _ _ w1) as [[r2 w2] t2] eqn:E2.
    destruct (importFile_rest _ _ _ _ _ _ _ E2) as (Hr2 & Hu2 & _).
    intros E. inversion E; subst. rewrite !count_app, Hr2.
    change (count is_request [EvRequest u; EvMkdtemp dir;
                              EvWriteFile (fetched_path file)]) with 1%nat.
    change (count is_upload [EvRequest u; EvMkdtemp dir;
                             EvWriteFile (fetched_path file)]) with 0%nat. lia.
  - destruct r1 as [file|e|].
    + now destruct (Hno file).
    + simpl. intros E. inversion E; subst. rewrite !count_app, Hu. cbn. lia.
    + intros E. inversion E; subst. rewrite Hu. lia.
Qed.

Lemma quiet_isValidFileUrl (url : JsStr) (allowedFileTypes : list string) :
  quiet (isValidFileUrl url allowedFileTypes).
Proof.
  intros w r w' t. rewrite isValidFileUrl_run.
  destruct (check_url url allowedFileTypes); intros E; inversion E; auto.
Qed.

Lemma importByUrl_frugal (d : Descriptor) (allowedFileTypes : list string)
    (user : User) :
  within_budget 1 (importByUrl d allowedFileTypes user).
Proof.
  unfold importByUrl.
  apply (within_budget_bind 0 1); [apply quiet_within_budget, quiet_isValidFileUrl|].
  intros result. destruct (negb (isValid result)).
  { apply (within_budget_mono 0); [lia|apply quiet_within_budget, quiet_ret]. }
  apply (within_budget_bind 0 1); [apply quiet_within_budget, quiet_findFile|].
  intros file. destruct (negb (file_truthy file)).
  - apply importFile_frugal.
  - apply (within_budget_mono 0); [lia|apply quiet_within_budget, quiet_ret].
Qed.

(** X5. Resolving one media reference makes at most one GET and at most one
    upload, and never uploads without having made the GET. *)
Theorem one_get_and_one_upload_at_most :
  forall (ref : FileRef) (user : User) (allowedFileTypes : list string)
         (w w' : World) (r : Outcome MaybeFile) (t : list Event),
    findOrImportFile ref user allowedFileTypes w = (r, w', t) ->
    (count is_upload t <= count is_request t)%nat
    /\ (count is_request t <= 1)%nat.
Proof.
  intros ref user allowedFileTypes w w' r t E.
  cut (within_budget 1 (findOrImportFile ref user allowedFileTypes));
    [intros H; exact (H _ _ _ _ E)|clear E].
  destruct ref as [n|s|d|]; simpl.
  - apply (within_budget_mono 0); [lia|apply quiet_within_budget, quiet_importById].
  - apply importByUrl_frugal.
  - apply (within_budget_bind 0 1).
    { split_if; apply quiet_within_budget;
        [apply quiet_importById|apply quiet_ret]. }
    intros f1. apply (within_budget_bind 1 0).
    { split_if; [apply importByUrl_frugal|].
      apply (within_budget_mono 0); [lia|apply quiet_within_budget, quiet_ret]. }
    intros f2. apply (within_budget_bind 0 0);
      [|intros; apply quiet_within_budget, quiet_ret].
    split_if; apply quiet_within_budget;
      [apply quiet_importByName|apply quiet_ret].
  - apply (within_budget_mono 0); [lia|apply quiet_within_budget, quiet_ret].
Qed.

(** X6. A reference that has no url to try (a number, or a descriptor whose
    url is absent or empty) is resolved by lookups alone: no GET, no upload,
    and the world is left as it was. *)
Theorem without_url_only_lookups :
  forall (user : User) (allowedFileTypes : list string),
    (forall n, quiet (findOrImportFile (RefNumber n) user allowedFileTypes))
    /\ (forall d, str_truthy (d_url d) = false ->
                  quiet (findOrImportFile (RefObject d) user allowedFileTypes)).
Proof.
  intros user allowedFileTypes. split.
  - intros n. apply quiet_importById.
  - intros d Hu. simpl. apply quiet_bind.
    { split_if; [apply quiet_importById|apply quiet_ret]. }
    intros f1. rewrite Hu, andb_false_r. apply quiet_bind; [apply quiet_ret|].
    intros f2. apply quiet_bind; [|intros; apply quiet_ret].
    split_if; [apply quiet_importByName|apply quiet_ret].
Qed.

(** X7. The media import touches no file on disk but its own: when it ends,
    nothing is on disk that was not there before, and every file that was
    there and was not the path written by this import is still there. *)
Theorem import_touches_only_its_own_file :
  forall (args : ImportArgs) (user : User) (w w' : World)
         (r : Outcome MaybeFile) (t : list Event),
    importFile args user w = (r, w', t) ->
    (forall q, In q (disk w') -> In q (disk w))
    /\ (forall q, In q (disk w) -> ~ In (EvWriteFile q) t -> In q (disk w')).
Proof.
  intros args user w w' r t. unfold importFile.
  destruct (fetchFile (arg_url args) w) as [[r1 w1] t1] eqn:Ef.
  destruct (fetchFile_cases _ _ _ _ _ Ef)
    as [(file & u & dir & -> & _ & -> & Hd & _)|(Hno & Hd & _)].
  - destruct (try_catch_finally _ _ _ w1) as [[r2 w2] t2] eqn:E2.
    destruct (importFile_rest _ _ _ _ _ _ _ E2) as (_ & _ & Hsub & Hkeep).
    pose proof (importFile_finally args user file w1 w2 r2 t2) as Hfin.
    intros E. inversion E; subst. split.
    + intros q Hq. pose proof (Hsub q Hq) as Hq1. rewrite Hd in Hq1.
      destruct Hq1 as [<-|Hq1]; [|exact Hq1].
      exfalso.
      destruct (fetchFile_cases _ _ _ _ _ Ef)
        as [(file' & u' & dir' & Hr & _ & _ & _ & Ht)|(Hno & _)].
      * inversion Hr; subst file'.
        assert (Hin : In (fetched_path file) (disk w1)) by (rewrite Hd; now left).
        destruct (Hfin Ht Hin E2) as (_ & Hgone & _). now apply Hgone.
      * now destruct (Hno file).
    + intros q Hq Hnw. apply Hkeep.
      * rewrite Hd. now right.
      * intros ->. apply Hnw. simpl. auto.
  - destruct r1 as [file|e|].
    + now destruct (Hno file).
    + simpl. intros E. inversion E; subst. rewrite Hd. auto.
    + intros E. inversion E; subst. rewrite Hd. auto.
Qed.

End Budget.

Lemma one_get_and_one_upload_at_most_witness :
  Run.resolve (RefObject Run.pic) Demo.someone ["images"] Demo.empty_world
  = (fst (fst Run.first_run), snd (fst Run.first_run), snd Run.first_run)
  /\ count is_upload (snd Run.first_run) = 1%nat
  /\ (count is_upload (snd Run.first_run) <= count is_request (snd Run.first_run))%nat
  /\ (count is_request (snd Run.first_run) <= 1)%nat.
Proof.
  split; [reflexivity|]. split; [reflexivity|].
  exact (@one_get_and_one_upload_at_most plain_builtins Demo.demo_collaborators
           (RefObject Run.pic) Demo.someone ["images"] Demo.empty_world
           (snd (fst Run.first_run)) (fst (fst Run.first_run)) (snd Run.first_run)
           eq_refl).
Defined.

Lemma without_url_only_lookups_witness :
  str_truthy (d_url (only_name "report.pdf")) = false
  /\ quiet (Run.resolve (RefObject (only_name "report.pdf")) Demo.someone ["files"]).
Proof.
  split; [reflexivity|].
  exact (proj2 (@without_url_only_lookups plain_builtins Demo.demo_collaborators
                  Demo.someone ["files"]) (only_name "report.pdf") eq_refl).
Defined.

Lemma import_touches_only_its_own_file_witness :
  @importFile plain_builtins Demo.demo_collaborators Run.pic_args Demo.someone
    Cases.gallery
  = (Ret (JFile {| id := 2; hash := "y_pic_2"; ext := ".png";
                   file_name := "y-pic.png" |}),
     {| store := [Cases.named_hash;
                  {| id := 2; hash := "y_pic_2"; ext := ".png";
                     file_name := "y-pic.png" |}];
        disk := ["/tmp/other.txt"]; mkdtemp_count := 5 |},
     [EvRequest Run.pic_url; EvMkdtemp "/tmp/strapi-upload-4";
      EvWriteFile "/tmp/strapi-upload-4/y-pic.png";
      EvUpload {| files_name := "y-pic.png"; files_type := "image/png";
                  files_size := 2048;
                  files_path := "/tmp/strapi-upload-4/y-pic.png";
                  fileInfo_name := "y-pic.png";
                  fileInfo_alternativeText := "y-pic.png";
                  fileInfo_caption := "y-pic.png" |};
      EvRmFile "/tmp/strapi-upload-4/y-pic.png"])
  /\ In "/tmp/other.txt" (disk Cases.gallery)
  /\ In "/tmp/other.txt" ["/tmp/other.txt"].
Proof.
  split; [reflexivity|]. split; [simpl; auto|].
  refine (proj2 (@import_touches_only_its_own_file plain_builtins
                   Demo.demo_collaborators Run.pic_args Demo.someone Cases.gallery
                   _ _ _ eq_refl) "/tmp/other.txt" _ _).
  - simpl. auto.
  - simpl. intros H. repeat (destruct H as [H|H]; [discriminate|]). exact H.
Defined.

(* ================================================================== *)
(** ** Paths through the resolution by URL *)

Section UrlPaths.
Context {B : Builtins} {C : Collaborators}.

(** X8. When the file table is not empty, the resolution of a valid URL with
    a file name hands back the first entry of the table after its one lookup,
    whatever the hash, the name or the extension of that entry: nothing is
    fetched or uploaded and the world is left as it was. *)
Theorem first_entry_is_returned_for_any_url
    (d : Descriptor) (allowedFileTypes : list string) (user : User) (w : World)
    (result : CheckResult) (f : StoredFile) (others : list StoredFile)
    (Hcheck : check_url (d_url d) allowedFileTypes = Ok result)
    (Hvalid : isValid result = true)
    (Hname : fileName (fileData result) <> EmptyString)
    (Hstore : store w = f :: others) :
  importByUrl d allowedFileTypes user w
  = (Ret (JFile f), w,
     [EvFindMany (HashStartsWith (String.append (fileName (fileData result)) "_"))]).
Proof.
  rewrite (importByUrl_valid_run d allowedFileTypes user w result Hcheck Hvalid
             Hname).
  now rewrite found_by_hash, Hstore.
Qed.

(** X9. A response without a content-type header settles nothing, whatever
    its status: the callback throws before anything is written, the promise
    of the fetch and of the import stays pending, and the world is left as it
    was. *)
Theorem response_without_content_type_never_settles
    (u : string) (w : World) (statusCode : Z) (content_length : JsStr)
    (body : string)
    (Hreply : request w u = ReplyResponse statusCode None content_length body) :
  exists e,
    fetchFile (Some u) w = (Pending, w, [EvRequest u; EvUnhandledRejection e])
    /\ forall args user,
         arg_url args = Some u ->
         importFile args user w
         = (Pending, w, [EvRequest u; EvUnhandledRejection e]).
Proof.
  assert (Hf : exists e, fetchFile (Some u) w
               = (Pending, w, [EvRequest u; EvUnhandledRejection e])).
  { unfold fetchFile. rewrite Hreply. unfold fetch_callback.
    destruct (_ || _)%bool; eexists; reflexivity. }
  destruct Hf as (e & Hf). exists e. split; [exact Hf|].
  intros args user Hu. unfold importFile. rewrite Hu, Hf. reflexivity.
Qed.

(** X10. When the upload service refuses the fetched file, the import logs
    the error and throws it again, after removing the temporary file; the
    file table is what the fetch found. *)
Theorem refused_upload_is_rethrown_after_cleanup
    (args : ImportArgs) (user : User) (w w1 : World) (file : FetchedFile)
    (t1 : list Event) (err : Err)
    (Hfetch : fetchFile (arg_url args) w = (Ret file, w1, t1))
    (Hupload : upload w1 (upload_request args file) user = UploadRejected err) :
  importFile args user w
  = (Throw err,
     {| store := store w;
        disk := filter (fun q => negb (String.eqb (fetched_path file) q)) (disk w1);
        mkdtemp_count := mkdtemp_count w1 |},
     t1 ++ [EvUpload (upload_request args file); EvLogError err;
            EvRmFile (fetched_path file)]).
Proof.
  unfold importFile. rewrite Hfetch.
  destruct (fetchFile_frugal _ _ _ _ _ Hfetch) as (_ & _ & Hs).
  destruct (fetchFile_cases _ _ _ _ _ Hfetch)
    as [(file' & u & dir & Hr & _ & _ & Hd & Ht)|(Hno & _)];
    [|now destruct (Hno file)].
  inversion Hr; subst file'.
  unfold try_catch_finally, upload_fetched. fold (upload_request args file).
  rewrite Hupload. simpl. unfold deleteFileIfExists. rewrite Ht.
  assert (Hex : existsSync (fetched_path file) w1 = true).
  { unfold existsSync. rewrite Hd. simpl. now rewrite String.eqb_refl. }
  rewrite Hex. simpl. now rewrite Hs.
Qed.

(** X11. A descriptor whose id finds an allowed file is resolved by that
    lookup alone: its url is neither validated nor fetched and its name is
    not looked up. *)
Theorem id_match_ends_the_resolution
    (d : Descriptor) (user : User) (allowedFileTypes : list string)
    (w w1 : World) (f : StoredFile) (t1 : list Event)
    (Hid : id_truthy (d_id d) = true)
    (Hfound : importById (id_value (d_id d)) allowedFileTypes w
              = (Ret (JFile f), w1, t1)) :
  findOrImportFile (RefObject d) user allowedFileTypes w = (Ret (JFile f), w1, t1).
Proof.
  cbn [findOrImportFile isObjectSafe file_truthy negb andb]. rewrite Hid.
  unfold bind at 1. rewrite Hfound. cbn [file_truthy negb andb].
  rewrite !bind_ret_l. cbn [file_truthy negb andb]. rewrite bind_ret_l.
  unfold ret. now rewrite app_nil_r.
Qed.

(** X12. A descriptor without an id whose url is rejected falls back on its
    name: the result is what the lookup by name gives, after the events of the
    rejected validation. *)
Theorem rejected_url_falls_back_on_name
    (d : Descriptor) (user : User) (allowedFileTypes : list string) (w : World)
    (Hid : id_truthy (d_id d) = false)
    (Hurl : str_truthy (d_url d) = true)
    (Hname : str_truthy (d_name d) = true)
    (Hinvalid : forall result, check_url (d_url d) allowedFileTypes = Ok result ->
                               isValid result = false) :
  exists t0,
    importByUrl d allowedFileTypes user w = (Ret JNull, w, t0)
    /\ forall r w1 t1,
         importByName (d_name d) allowedFileTypes w = (r, w1, t1) ->
         findOrImportFile (RefObject d) user allowedFileTypes w = (r, w1, t0 ++ t1).
Proof.
  destruct (importByUrl_invalid d allowedFileTypes user w Hinvalid) as (t0 & E0 & _).
  exists t0. split; [exact E0|]. intros r w1 t1 En.
  cbn [findOrImportFile isObjectSafe file_truthy negb andb]. rewrite Hid.
  rewrite bind_ret_l. cbn [file_truthy negb andb]. rewrite Hurl.
  unfold bind at 1. rewrite E0. cbn [file_truthy negb andb]. rewrite Hname.
  rewrite bind_ret_r, En. reflexivity.
Qed.

End UrlPaths.

Lemma first_entry_is_returned_for_any_url_witness :
  @check_url plain_builtins (d_url Run.pic) ["images"] = Ok Run.pic_check
  /\ store Cases.assets = [Cases.logo]
  /\ JsString.startsWith (hash Cases.logo) "y-pic.png_" = false
  /\ Run.resolve_by_url Run.pic ["images"] Demo.someone Cases.assets
     = (Ret (JFile Cases.logo), Cases.assets,
        [EvFindMany (HashStartsWith "y-pic.png_")]).
Proof.
  split; [reflexivity|]. split; [reflexivity|]. split; [reflexivity|].
  refine (@first_entry_is_returned_for_any_url plain_builtins
            Demo.demo_collaborators Run.pic ["images"] Demo.someone Cases.assets
            Run.pic_check Cases.logo [] eq_refl eq_refl _ eq_refl).
  discriminate.
Defined.

Lemma response_without_content_type_never_settles_witness :
  @request Cases.headerless Demo.empty_world Run.pic_url
  = ReplyResponse 200 None (Some "3") "abc"
  /\ exists e,
       @fetchFile plain_builtins Cases.headerless (Some Run.pic_url) Demo.empty_world
       = (Pending, Demo.empty_world,
          [EvRequest Run.pic_url; EvUnhandledRejection e])
       /\ forall args user,
            arg_url args = Some Run.pic_url ->
            @importFile plain_builtins Cases.headerless args user Demo.empty_world
            = (Pending, Demo.empty_world,
               [EvRequest Run.pic_url; EvUnhandledRejection e]).
Proof.
  split; [reflexivity|].
  exact (@response_without_content_type_never_settles plain_builtins
           Cases.headerless Run.pic_url Demo.empty_world 200 (Some "3") "abc"
           eq_refl).
Defined.

Lemma refused_upload_is_rethrown_after_cleanup_witness :
  @fetchFile plain_builtins Cases.refusing (arg_url Run.pic_args) Demo.empty_world
  = (Ret Cases.fetched_pic, Cases.after_fetch,
     [EvRequest Run.pic_url; EvMkdtemp "/tmp/strapi-upload-0";
      EvWriteFile Run.pic_tmp])
  /\ @importFile plain_builtins Cases.refusing Run.pic_args Demo.someone
       Demo.empty_world
     = (Throw (Error "File size too large"),
        {| store := []; disk := []; mkdtemp_count := 1 |},
        [EvRequest Run.pic_url; EvMkdtemp "/tmp/strapi-upload-0";
         EvWriteFile Run.pic_tmp;
         EvUpload (upload_request Run.pic_args Cases.fetched_pic);
         EvLogError (Error "File size too large"); EvRmFile Run.pic_tmp]).
Proof.
  split; [reflexivity|].
  exact (@refused_upload_is_rethrown_after_cleanup plain_builtins Cases.refusing
           Run.pic_args Demo.someone Demo.empty_world Cases.after_fetch
           Cases.fetched_pic _ (Error "File size too large") eq_refl eq_refl).
Defined.

Lemma id_match_ends_the_resolution_witness :
  id_truthy (d_id Cases.logo_or_pic) = true
  /\ importById 9 ["images"] Cases.assets
     = (Ret (JFile Cases.logo), Cases.assets, [EvFindOne 9])
  /\ Run.resolve (RefObject Cases.logo_or_pic) Demo.someone ["images"] Cases.assets
     = (Ret (JFile Cases.logo), Cases.assets, [EvFindOne 9]).
Proof.
  split; [reflexivity|]. split; [reflexivity|].
  exact (@id_match_ends_the_resolution plain_builtins Demo.demo_collaborators
           Cases.logo_or_pic Demo.someone ["images"] Cases.assets Cases.assets
           Cases.logo [EvFindOne 9] eq_refl eq_refl).
Defined.

Lemma rejected_url_falls_back_on_name_witness :
  importByName (Some "logo.png") ["images"] Cases.assets
  = (Ret (JFile Cases.logo), Cases.assets, [EvFindMany (NameEquals "logo.png")])
  /\ Run.resolve (RefObject Cases.installer_or_logo) Demo.someone ["images"]
       Cases.assets
     = (Ret (JFile Cases.logo), Cases.assets, [EvFindMany (NameEquals "logo.png")]).
Proof.
  split; [reflexivity|].
  destruct (@rejected_url_falls_back_on_name plain_builtins Demo.demo_collaborators
              Cases.installer_or_logo Demo.someone ["images"] Cases.assets
              eq_refl eq_refl eq_refl) as (t0 & E0 & Hfall).
  - intros result E. vm_compute in E. inversion E. reflexivity.
  - vm_compute in E0. inversion E0; subst t0.
    exact (Hfall _ _ _ eq_refl).
Defined.

(* ================================================================== *)
(** ** What a fetched file looks like *)

Lemma contains_replaceAll (c d : ascii) (s : string) :
  Ascii.eqb d c = false -> JsString.contains c (JsString.replaceAll c d s) = false.
Proof.
  intros Hd. induction s as [|a r IH]; simpl; [reflexivity|].
  destruct (Ascii.eqb a c) eqn:E; [rewrite Hd|rewrite E]; exact IH.
Qed.

Lemma shift_split_no_separator (c : ascii) (s : string) :
  JsString.contains c (JsString.shift (JsString.split c s)) = false.
Proof.
  induction s as [|a r IH]; simpl; [reflexivity|].
  destruct (Ascii.eqb a c) eqn:E; [reflexivity|].
  destruct (JsString.split c r) as [|h t]; simpl in *; rewrite E; [reflexivity|exact IH].
Qed.

(** The first piece of a split is the text up to the first separator. *)
Lemma shift_split_prefix (c : ascii) (s : string) :
  s = JsString.shift (JsString.split c s)
  \/ exists rest,
       s = String.append (JsString.shift (JsString.split c s)) (String c rest).
Proof.
  induction s as [|a r IH]; simpl; [now left|].
  destruct (Ascii.eqb a c) eqn:E.
  - apply Ascii.eqb_eq in E. subst a. right. now exists r.
  - destruct (JsString.split c r) as [|h t]; simpl in *.
    + destruct IH as [->|(rest & ->)]; [now left|right; now exists rest].
    + destruct IH as [->|(rest & ->)]; [now left|right; now exists rest].
Qed.

Lemma to_int32_range (v : option Z) :
  (- 2 ^ 31 <= to_int32 v < 2 ^ 31)%Z.
Proof.
  destruct v as [n|]; simpl to_int32; [|lia].
  pose proof (Z.mod_pos_bound (n + 2 ^ 31) (2 ^ 32) ltac:(lia)). lia.
Qed.

Section FetchedFiles.
Context {B : Builtins} {C : Collaborators}.

Lemma file_name_has_no_slash (url : JsStr) (data : RawFileData) :
  getFileDataFromRawUrl url = Ok data ->
  JsString.contains "/" (name data) = false.
Proof.
  unfold getFileDataFromRawUrl.
  destruct (parsed_pathname url) as [pathname|e]; simpl; [|discriminate].
  destruct (getHashPart url) as [hp|e]; simpl; [|discriminate].
  intros E. inversion E. simpl. now apply contains_replaceAll.
Qed.

(** X13. Whenever a fetch resolves, the request was answered with a content
    type, one temporary directory was made and one file written, and the
    temporary file lies directly in that directory: its path is the
    directory, a slash and the file name, and the file name is not empty and
    has no slash in it.  The type handed on is the content type up to its
    first semicolon, and the size is a signed 32-bit integer. *)
Theorem fetched_file_lies_in_its_directory :
  forall (u : string) (w w1 : World) (file : FetchedFile) (t1 : list Event),
    fetchFile (Some u) w = (Ret file, w1, t1) ->
    exists statusCode ct content_length body dir,
      request w u = ReplyResponse statusCode (Some ct) content_length body
      /\ t1 = [EvRequest u; EvMkdtemp dir; EvWriteFile (fetched_path file)]
      /\ fetched_path file
         = String.append dir (String.append "/" (fetched_name file))
      /\ fetched_name file <> EmptyString
      /\ JsString.contains "/" (fetched_name file) = false
      /\ JsString.contains ";" (fetched_type file) = false
      /\ (ct = fetched_type file
          \/ exists rest,
               ct = String.append (fetched_type file) (String ";" rest))
      /\ (- 2 ^ 31 <= fetched_size file < 2 ^ 31)%Z.
Proof.
  intros u w w1 file t1. unfold fetchFile.
  destruct (request w u) as [err|statusCode ct cl body] eqn:Er; [discriminate|].
  unfold fetch_callback. destruct (_ || _)%bool; [discriminate|].
  destruct ct as [ct|]; [|discriminate].
  unfold bind at 1.
  destruct (getFileDataFromRawUrl (Some u)) as [data|e] eqn:Ed; simpl;
    [|discriminate].
  pose proof (file_name_has_no_slash _ _ Ed) as Hslash.
  unfold bind, writeFile, path_join.
  destruct (JsString.truthy (name data)) eqn:Hn; [|discriminate].
  destruct (writeFileSync_error _ _) as [err|]; [discriminate|].
  simpl. intros E. inversion E; subst. simpl.
  exists statusCode, ct, cl, body. eexists.
  split; [reflexivity|]. split; [reflexivity|]. split; [reflexivity|].
  split; [intros H0; rewrite H0 in Hn; discriminate|].
  split; [exact Hslash|].
  split; [apply shift_split_no_separator|].
  split; [apply shift_split_prefix|apply to_int32_range].
Qed.

(** X14. The content slug does not see the extension: two URLs whose
    pathnames differ in nothing but the text after the last dot have the same
    hash part, the slug of what stands before that dot. *)
Theorem hash_part_ignores_the_extension
    (url1 url2 : JsStr) (p q1 q2 : string)
    (Hp : p <> EmptyString)
    (Hq1 : JsString.contains "." q1 = false)
    (Hq2 : JsString.contains "." q2 = false)
    (H1 : parsed_pathname url1 = Ok (String.append p (String "." q1)))
    (H2 : parsed_pathname url2 = Ok (String.append p (String "." q2))) :
  getHashPart url1 = Ok (slugify p) /\ getHashPart url2 = getHashPart url1.
Proof.
  unfold getHashPart. rewrite H1, H2. simpl.
  now rewrite !without_extension_strips.
Qed.

End FetchedFiles.

Lemma lower_slash (r : string) :
  JsString.toLowerCase (String "/" r) = String "/" (JsString.toLowerCase r).
Proof. reflexivity. Qed.

Lemma closed_lists_reject_slash (t : FileType) (x : string) :
  checker_of t (String "/" x) = true -> t = files.
Proof. destruct t; simpl; try discriminate. reflexivity. Qed.

(** X15. A pathname that starts with a slash and has no dot in it has itself,
    lower-cased, as derived extension, which none of the closed lists holds:
    such a URL is accepted exactly when files is among the allowed types. *)
Theorem without_a_dot_only_files_accepts :
  forall (r : string) (ts : list FileType),
    JsString.contains "." r = false ->
    derived_extension (String "/" r) = String "/" (JsString.toLowerCase r)
    /\ (isExtensionAllowed (derived_extension (String "/" r)) (map type_name ts)
        = Ok true <-> In files ts).
Proof.
  intros r ts Hr.
  assert (Hd : derived_extension (String "/" r) = String "/" (JsString.toLowerCase r)).
  { unfold derived_extension. rewrite split_no_separator; [reflexivity|exact Hr]. }
  split; [exact Hd|]. rewrite Hd, isExtensionAllowed_known. split.
  - intros E. inversion E as [Hex]. apply existsb_exists in Hex.
    destruct Hex as (t & Ht & Hc). apply closed_lists_reject_slash in Hc. now subst.
  - intros Hin. f_equal. apply existsb_exists. exists files. split; [exact Hin|reflexivity].
Qed.

Lemma fetched_file_lies_in_its_directory_witness :
  @fetchFile plain_builtins Demo.demo_collaborators (Some Run.pic_url) Cases.gallery
  = (Ret {| fetched_name := "y-pic.png"; fetched_type := "image/png";
            fetched_size := 2048;
            fetched_path := "/tmp/strapi-upload-4/y-pic.png" |},
     {| store := [Cases.named_hash];
        disk := ["/tmp/strapi-upload-4/y-pic.png"; "/tmp/other.txt"];
        mkdtemp_count := 5 |},
     [EvRequest Run.pic_url; EvMkdtemp "/tmp/strapi-upload-4";
      EvWriteFile "/tmp/strapi-upload-4/y-pic.png"])
  /\ Demo.demo_request Cases.gallery Run.pic_url
     = ReplyResponse 200 (Some "image/png; charset=binary") (Some "2048") "PNG"
  /\ exists statusCode ct content_length body dir,
       Demo.demo_request Cases.gallery Run.pic_url
       = ReplyResponse statusCode (Some ct) content_length body
       /\ [EvRequest Run.pic_url; EvMkdtemp "/tmp/strapi-upload-4";
           EvWriteFile "/tmp/strapi-upload-4/y-pic.png"]
          = [EvRequest Run.pic_url; EvMkdtemp dir;
             EvWriteFile "/tmp/strapi-upload-4/y-pic.png"]
       /\ "/tmp/strapi-upload-4/y-pic.png"
          = String.append dir (String.append "/" "y-pic.png")
       /\ "y-pic.png" <> EmptyString
       /\ JsString.contains "/" "y-pic.png" = false
       /\ JsString.contains ";" "image/png" = false
       /\ (ct = "image/png"
           \/ exists rest, ct = String.append "image/png" (String ";" rest))
       /\ (- 2 ^ 31 <= 2048 < 2 ^ 31)%Z.
Proof.
  split; [reflexivity|]. split; [reflexivity|].
  exact (@fetched_file_lies_in_its_directory plain_builtins Demo.demo_collaborators
           Run.pic_url Cases.gallery _ _ _ eq_refl).
Defined.

Lemma hash_part_ignores_the_extension_witness :
  @parsed_pathname plain_builtins (Some "https://x/y/pic.png") = Ok "/y/pic.png"
  /\ @parsed_pathname plain_builtins (Some "https://x/y/pic.jpeg") = Ok "/y/pic.jpeg"
  /\ Run.hash_part (Some "https://x/y/pic.png") = Ok (PlainUrl.slug "/y/pic")
  /\ Run.hash_part (Some "https://x/y/pic.jpeg") = Run.hash_part (Some "https://x/y/pic.png").
Proof.
  split; [reflexivity|]. split; [reflexivity|].
  refine (@hash_part_ignores_the_extension plain_builtins
            (Some "https://x/y/pic.png") (Some "https://x/y/pic.jpeg")
            "/y/pic" "png" "jpeg" _ eq_refl eq_refl eq_refl eq_refl).
  discriminate.
Defined.

Lemma without_a_dot_only_files_accepts_witness :
  JsString.contains "." "README" = false
  /\ derived_extension "/README" = "/readme"
  /\ (isExtensionAllowed (derived_extension "/README")
        (map type_name [images; files]) = Ok true <-> In files [images; files]).
Proof.
  split; [reflexivity|].
  exact (without_a_dot_only_files_accepts "README" [images; files] eq_refl).
Defined.

(* ================================================================== *)
(** ** Errors and edges of the resolution by URL *)

Section UrlEdges.
Context {B : Builtins} {C : Collaborators}.

Lemma check_url_data (url : JsStr) (allowedFileTypes : list string)
    (result : CheckResult) :
  check_url url allowedFileTypes = Ok result ->
  exists data,
    getFileDataFromRawUrl url = Ok data
    /\ fileName (fileData result) = name data
    /\ rawUrl (fileData result) = url.
Proof.
  unfold check_url.
  destruct (getFileDataFromRawUrl url) as [data|e]; simpl; [|discriminate].
  destruct (isExtensionAllowed _ _) as [b|e]; simpl; [|discriminate].
  destruct (getHashPart url) as [hp|e]; simpl; [|discriminate].
  intros E. inversion E. exists data. auto.
Qed.

(** X16. When the file table is empty and the GET of a valid URL fails in
    transport, the resolution by URL throws that error after logging it once:
    nothing is written or uploaded and the world is left as it was. *)
Theorem transport_error_is_logged_and_rethrown
    (d : Descriptor) (allowedFileTypes : list string) (user : User) (w : World)
    (result : CheckResult) (u : string) (err : Err)
    (Hcheck : check_url (d_url d) allowedFileTypes = Ok result)
    (Hvalid : isValid result = true)
    (Hname : fileName (fileData result) <> EmptyString)
    (Hurl : d_url d = Some u)
    (Hempty : store w = [])
    (Hreply : request w u = ReplyError err) :
  importByUrl d allowedFileTypes user w
  = (Throw err, w,
     [EvFindMany (HashStartsWith (String.append (fileName (fileData result)) "_"));
      EvRequest u; EvLogError err]).
Proof.
  rewrite (importByUrl_valid_run d allowedFileTypes user w result Hcheck Hvalid Hname).
  rewrite found_by_hash, Hempty.
  destruct (check_url_data _ _ _ Hcheck) as (data & _ & _ & Hr).
  assert (Ha : arg_url (import_args d result) = Some u).
  { unfold import_args. simpl. now rewrite Hr. }
  now rewrite (importFile_transport_error _ user u w err Ha Hreply).
Qed.

(** X17. A valid URL whose file name is empty (a pathname of slashes only) is
    never looked up in the file table: it is fetched straight away, and the
    resolution can only throw or stay pending, because the path to write is
    the temporary directory itself.  Nothing is written or uploaded. *)
Theorem empty_file_name_is_fetched_and_never_resolves
    (d : Descriptor) (allowedFileTypes : list string) (user : User) (w w' : World)
    (result : CheckResult) (u : string) (r : Outcome MaybeFile) (t : list Event)
    (Hcheck : check_url (d_url d) allowedFileTypes = Ok result)
    (Hvalid : isValid result = true)
    (Hname : fileName (fileData result) = EmptyString)
    (Hurl : d_url d = Some u)
    (Hrun : importByUrl d allowedFileTypes user w = (r, w', t)) :
  hd_error t = Some (EvRequest u)
  /\ existsb is_lookup t = false
  /\ existsb is_upload t = false
  /\ (forall p, ~ In (EvWriteFile p) t)
  /\ (forall file, r <> Ret file)
  /\ store w' = store w /\ disk w' = disk w.
Proof.
  destruct (check_url_data _ _ _ Hcheck) as (data & Hd & Hn & Hr).
  rewrite Hname in Hn. rewrite Hurl in Hd, Hr.
  revert Hrun. unfold importByUrl. unfold bind at 1.
  rewrite isValidFileUrl_run, Hcheck, Hvalid. cbn [negb]. unfold bind at 1.
  unfold findFile. cbn [filter_id filter_hash filter_name id_truthy str_truthy].
  rewrite Hname. cbn. unfold importFile, fetchFile. cbn [arg_url]. rewrite Hr.
  destruct (request w u) as [err|statusCode ct cl body].
  { cbn. intros E. inversion E; subst. cbn. repeat split; try discriminate.
    intros p [H|[H|[]]]; discriminate. }
  unfold fetch_callback. destruct (_ || _)%bool.
  { cbn. intros E. inversion E; subst. cbn. repeat split; try discriminate.
    intros p [H|[H|[]]]; discriminate. }
  destruct ct as [ct|].
  2:{ cbn. intros E. inversion E; subst. cbn. repeat split; try discriminate.
      intros p [H|[H|[]]]; discriminate. }
  unfold bind at 1. rewrite Hd. cbn [lift ret]. unfold bind, writeFile.
  rewrite <- Hn. cbn. intros E. inversion E; subst. cbn.
  repeat split; try discriminate.
  intros p [H|[H|[H|[H|[]]]]]; discriminate.
Qed.

End UrlEdges.

Lemma transport_error_is_logged_and_rethrown_witness :
  @check_url plain_builtins (d_url Cases.unreachable) ["images"]
  = Ok Cases.unreachable_check
  /\ store Demo.empty_world = []
  /\ Demo.demo_request Demo.empty_world "https://down/pic.png"
     = ReplyError (Error "connect ECONNREFUSED")
  /\ Run.resolve_by_url Cases.unreachable ["images"] Demo.someone Demo.empty_world
     = (Throw (Error "connect ECONNREFUSED"), Demo.empty_world,
        [EvFindMany (HashStartsWith "pic.png_"); EvRequest "https://down/pic.png";
         EvLogError (Error "connect ECONNREFUSED")]).
Proof.
  split; [reflexivity|]. split; [reflexivity|]. split; [reflexivity|].
  refine (@transport_error_is_logged_and_rethrown plain_builtins
            Demo.demo_collaborators Cases.unreachable ["images"] Demo.someone
            Demo.empty_world Cases.unreachable_check "https://down/pic.png"
            (Error "connect ECONNREFUSED") eq_refl eq_refl _ eq_refl eq_refl eq_refl).
  discriminate.
Defined.

Lemma empty_file_name_is_fetched_and_never_resolves_witness :
  @check_url plain_builtins (d_url Cases.root) ["files"] = Ok Cases.root_check
  /\ @importByUrl plain_builtins Cases.generous Cases.root ["files"] Demo.someone
       Demo.empty_world
     = (Pending, {| store := []; disk := []; mkdtemp_count := 1 |},
        [EvRequest "https://x/"; EvMkdtemp "/tmp/strapi-upload-0";
         EvLogError (Error "EISDIR: illegal operation on a directory");
         EvUnhandledRejection (Error "EISDIR: illegal operation on a directory")])
  /\ forall file, (Pending : Outcome MaybeFile) <> Ret file.
Proof.
  split; [reflexivity|]. split; [reflexivity|].
  exact (proj1 (proj2 (proj2 (proj2 (proj2
    (@empty_file_name_is_fetched_and_never_resolves plain_builtins Cases.generous
       Cases.root ["files"] Demo.someone Demo.empty_world _ Cases.root_check
       "https://x/" _ _ eq_refl eq_refl eq_refl eq_refl eq_refl)))))).
Defined.

(* ================================================================== *)
(** ** The configuration and the export handler *)

(** X18. The validator of the configuration accepts exactly an object whose
    server public hostname is a string, the empty string included, so the
    defaults pass; it throws when called with nothing. *)
Theorem validator_accepts_exactly_string_hostnames :
  (forall arg,
      Config.validator arg = Ok tt <->
      exists settings s,
        arg = Config.ArgObject settings
        /\ Config.serverPublicHostname settings = Config.VString s)
  /\ Config.validator (Config.ArgObject Config.default) = Ok tt
  /\ Config.validator Config.ArgUndefined
     = Raise (Error "serverPublicHostname has to be a string.").
Proof.
  split; [|split; reflexivity].
  intros arg. split.
  - destruct arg as [| |settings]; simpl; try discriminate.
    destruct (Config.serverPublicHostname settings) as [| | | |s] eqn:E; simpl;
      try discriminate.
    intros _. now exists settings, s.
  - intros (settings & s & -> & E). simpl. now rewrite E.
Qed.

Section ExportPaths.
Import ExportController.
Context {H : Host}.

(** X19. The export handler answers forbidden exactly when the principal may
    not read the collection, also when the service throws; the export service
    is called once when the principal may read and not at all otherwise, and a
    request without deepness asks the service for deepness 5. *)
Theorem forbidden_exactly_without_permission :
  forall ctx : Ctx,
    let permitted := can_read (state_userAbility ctx) (slug (request_body ctx)) in
    (fst (exportData ctx) = Forbidden <-> permitted = false)
    /\ List.length (filter is_export_call (snd (exportData ctx)))
       = (if permitted then 1 else 0)%nat
    /\ (forall p, In (CallExportData p) (snd (exportData ctx)) ->
          p_slug p = slug (request_body ctx)
          /\ p_deepness p = match deepness (request_body ctx) with
                            | Some n => n
                            | None => 5%Z
                            end).
Proof.
  intros ctx permitted. unfold exportData, hasPermissions. fold permitted.
  destruct permitted; simpl.
  - destruct (export_service _); simpl;
      (split; [split; discriminate|]); (split; [reflexivity|]);
      intros p [Hp|[Hp|[]]]; try discriminate; inversion Hp; split; reflexivity.
  - split; [split; reflexivity|]. split; [reflexivity|].
    intros p [Hp|[Hp|[]]]; discriminate.
Qed.

End ExportPaths.

Lemma forbidden_exactly_without_permission_witness :
  fst (ExportController.exportData Cases.granted)
  = @ExportController.Body Run.demo_host "[]"
  /\ List.length (filter ExportController.is_export_call
                    (snd (ExportController.exportData Cases.granted))) = 1%nat
  /\ List.length (filter ExportController.is_export_call
                    (snd (ExportController.exportData Run.denied))) = 0%nat.
Proof.
  split; [reflexivity|].
  split.
  - exact (proj1 (proj2 (forbidden_exactly_without_permission Cases.granted))).
  - exact (proj1 (proj2 (forbidden_exactly_without_permission Run.denied))).
Defined.

(* ================================================================== *)
(** ** The same URL resolved twice *)

Section Reuse.
Context {B : Builtins} {C : Collaborators}.




End Reuse.


(** C2 as stated fails for a descriptor that carries a name beside the
    rejected url: [{ url: "https://x/setup.exe", name: "logo.png" }] with
    images allowed is resolved to the stored file of that name, not to
    [null]. *)
Lemma rejected_url_with_a_name_yields_a_file :
  @parsed_pathname plain_builtins (d_url Cases.installer_or_logo) = Ok "/setup.exe"
  /\ isExtensionAllowed (derived_extension "/setup.exe") ["images"] = Ok false
  /\ Run.resolve (RefObject Cases.installer_or_logo) Demo.someone ["images"]
       Cases.assets
     = (Ret (JFile Cases.logo), Cases.assets, [EvFindMany (NameEquals "logo.png")])
  /\ fst (fst (Run.resolve (RefObject Cases.installer_or_logo) Demo.someone
                 ["images"] Cases.assets)) <> Ret JNull.
Proof. vm_compute. repeat split. discriminate. Qed.
